(** * InstrumentKit: the SRS830 lock-in amplifier and the TC200 temperature
      controller drivers

    A shallow embedding of [instruments/srs/srs830.py] and
    [instruments/thorlabs/tc200.py].  The drivers talk to a device through
    a communicator offering [sendcmd], [query] and [read]; the embedding
    threads the chronological log of what was put on the channel through
    every method and lets a device oracle answer each query from that log.
    Python exceptions are the error alternative of the result type, and
    the log is kept when a method raises, so that "nothing was written
    before the error" is a statement about the log. *)

From Stdlib Require Import ZArith QArith Qround List String Ascii Bool Lia.
From Stdlib Require Import DecimalString.
Import ListNotations.

Local Open Scope string_scope.
Local Open Scope Z_scope.

(** ** The part of the Python runtime the drivers rely on *)

Module Py.

(** The exception classes the two drivers can raise. *)
Inductive exn : Type :=
| ValueError | TypeError | IOError | KeyError | AttributeError
| ZeroDivisionError | OverflowError.

Inductive result (A : Type) : Type :=
| Ok (a : A)
| Err (e : exn).
Arguments Ok {A} a.
Arguments Err {A} e.

(** A Python [float]: a finite double is the rational it denotes, so that
    [==], [<] and [>=] on finite values are the exact comparisons of
    rationals; comparisons with [nan] are all false. *)
Inductive pyfloat : Type :=
| Finite (q : Q)
| PosInf
| NegInf
| NaN.

Definition float_compare (x y : pyfloat) : option comparison :=
  match x, y with
  | NaN, _ | _, NaN => None
  | Finite p, Finite q => Some (p ?= q)%Q
  | PosInf, PosInf | NegInf, NegInf => Some Eq
  | NegInf, _ | _, PosInf => Some Lt
  | _, NegInf | PosInf, _ => Some Gt
  end.

Definition float_lt (x y : pyfloat) : bool :=
  match float_compare x y with Some Lt => true | _ => false end.
Definition float_le (x y : pyfloat) : bool :=
  match float_compare x y with Some Lt | Some Eq => true | _ => false end.
Definition float_gt (x y : pyfloat) : bool := float_lt y x.
Definition float_ge (x y : pyfloat) : bool := float_le y x.
Definition float_eq (x y : pyfloat) : bool :=
  match float_compare x y with Some Eq => true | _ => false end.

(** An integer literal compared with a float. *)
Definition of_int (z : Z) : pyfloat := Finite (inject_Z z).

(** The values a caller can hand to an untyped parameter. *)
Inductive pyval : Type :=
| PyInt (z : Z)
| PyBool (b : bool)
| PyFloat (f : pyfloat)
| PyStr (s : string)
| PyNone.

(** [isinstance(v, int)]: [bool] is a subclass of [int]. *)
Definition is_int (v : pyval) : bool :=
  match v with PyInt _ | PyBool _ => true | _ => false end.
Definition is_float (v : pyval) : bool :=
  match v with PyFloat _ => true | _ => false end.
Definition is_str (v : pyval) : bool :=
  match v with PyStr _ => true | _ => false end.

(** The number a numeric value denotes, for [==] against a float. *)
Definition as_float (v : pyval) : option pyfloat :=
  match v with
  | PyInt z => Some (of_int z)
  | PyBool b => Some (of_int (if b then 1 else 0))
  | PyFloat f => Some f
  | _ => None
  end.

(** [v == f] for a float [f]: a string or [None] equals no number. *)
Definition eq_float (v : pyval) (f : pyfloat) : bool :=
  match as_float v with Some x => float_eq x f | None => false end.

(** [range(lo, hi)]. *)
Definition range (lo hi : Z) : list Z :=
  map (fun k => lo + Z.of_nat k) (seq 0 (Z.to_nat (hi - lo))).

(** [x in l] and [l.index(x)] for a list of numbers. *)
Definition contains (l : list pyfloat) (v : pyval) : bool :=
  existsb (eq_float v) l.

Fixpoint index_from (i : Z) (l : list pyfloat) (v : pyval) : result Z :=
  match l with
  | [] => Err ValueError
  | f :: l' => if eq_float v f then Ok i else index_from (i + 1) l' v
  end.

Definition index (l : list pyfloat) (v : pyval) : result Z := index_from 0 l v.

(** [str(z)], the text [format] substitutes for an integer. *)
Definition str_of_int (z : Z) : string := NilZero.string_of_int (Z.to_int z).

(** [s.lower()] on ASCII letters. *)
Definition lower_char (c : ascii) : ascii :=
  let n := nat_of_ascii c in
  if ((65 <=? n) && (n <=? 90))%nat then ascii_of_nat (n + 32) else c.

Fixpoint lower (s : string) : string :=
  match s with
  | EmptyString => EmptyString
  | String c s' => String (lower_char c) (lower s')
  end.

(** [s.find(pat)]: the lowest index at which [pat] occurs, or -1. *)
Fixpoint find_from (pat s : string) (i : Z) : Z :=
  if prefix pat s then i
  else match s with
       | EmptyString => -1
       | String _ s' => find_from pat s' (i + 1)
       end.

Definition find (s pat : string) : Z := find_from pat s 0.

(** [s.replace(old, new)]: every non-overlapping occurrence of [old],
    leftmost first.  [skip] counts the characters of an occurrence still
    to be dropped.  An empty [old] matches between all characters. *)
Fixpoint replace_scan (old new : string) (skip : nat) (s : string) : string :=
  match s with
  | EmptyString => EmptyString
  | String c s' =>
      match skip with
      | S k => replace_scan old new k s'
      | O => if prefix old s
             then new ++ replace_scan old new (String.length old - 1) s'
             else String c (replace_scan old new O s')
      end
  end.

Fixpoint intersperse (new s : string) : string :=
  match s with
  | EmptyString => new
  | String c s' => new ++ String c (intersperse new s')
  end.

Definition replace (s old new : string) : string :=
  match old with
  | EmptyString => intersperse new s
  | _ => replace_scan old new O s
  end.

(** [s.strip()] removes the leading and the trailing whitespace; which
    characters are whitespace is the interpreter's business. *)
Section Strip.
Variable isspace : ascii -> bool.

Fixpoint lstrip (s : string) : string :=
  match s with
  | EmptyString => EmptyString
  | String c s' => if isspace c then lstrip s' else s
  end.

Fixpoint rstrip (s : string) : string :=
  match s with
  | EmptyString => EmptyString
  | String c s' =>
      match rstrip s' with
      | EmptyString => if isspace c then EmptyString else String c EmptyString
      | t => String c t
      end
  end.

Definition strip (s : string) : string := rstrip (lstrip s).
End Strip.

(** Truth value of a string: [not resp] holds of the empty string. *)
Definition falsy (s : string) : bool :=
  match s with EmptyString => true | _ => false end.

(** [s.split(sep)] for a one-character separator. *)
Fixpoint split (sep : ascii) (s : string) : list string :=
  match s with
  | EmptyString => [EmptyString]
  | String c s' =>
      if Ascii.eqb c sep then EmptyString :: split sep s'
      else match split sep s' with
           | [] => [String c EmptyString]
           | w :: ws => String c w :: ws
           end
  end.

(** [v > z] and [v < z] against an integer literal: only numbers are
    ordered against numbers. *)
Definition gt_int (v : pyval) (z : Z) : result bool :=
  match as_float v with
  | Some x => Ok (float_gt x (of_int z))
  | None => Err TypeError
  end.

Definition lt_int (v : pyval) (z : Z) : result bool :=
  match as_float v with
  | Some x => Ok (float_lt x (of_int z))
  | None => Err TypeError
  end.

(** The truth value of a value, as [if v] and [x if v else y] take it. *)
Definition truthy (v : pyval) : bool :=
  match v with
  | PyInt z => negb (z =? 0)
  | PyBool b => b
  | PyFloat (Finite q) => negb (Qeq_bool q 0)
  | PyFloat _ => true
  | PyStr s => negb (falsy s)
  | PyNone => false
  end.

(** [v is z] for a small integer literal [z]: only the integer itself. *)
Definition is_literal (v : pyval) (z : Z) : bool :=
  match v with PyInt n => n =? z | _ => false end.

(** [l[i]] for a list: items are counted from the end when [i] is
    negative, and [None] stands for the [IndexError] of an index out of
    range. *)
Definition item {A} (l : list A) (i : Z) : option A :=
  let n := Z.of_nat (List.length l) in
  if (0 <=? i) && (i <? n) then nth_error l (Z.to_nat i)
  else if (- n <=? i) && (i <? 0) then nth_error l (Z.to_nat (n + i))
  else None.

(** The integer a double holds once [float] has rounded [z] to 53
    significant bits, a tie going to the even mantissa. *)
Definition round_to_double (z : Z) : Z :=
  let a := Z.abs z in
  if a <? 2 ^ 53 then z else
  let e := Z.log2 a - 52 in
  let m := a / 2 ^ e in
  let rest := a mod 2 ^ e in
  let half := 2 ^ (e - 1) in
  let m' := if rest <? half then m
            else if half <? rest then m + 1
            else if Z.even m then m else m + 1 in
  Z.sgn z * (m' * 2 ^ e).

(** [float(z)] for an integer [z]: the double nearest to it, and
    [OverflowError] when that is beyond the largest double. *)
Definition float_of_int (z : Z) : result pyfloat :=
  let d := round_to_double z in
  if Z.abs d <? 2 ^ 1024 then Ok (of_int d) else Err OverflowError.

End Py.

(** ** The communicator: a log of channel events and a device oracle *)

Module Chan.
Import Py.

(** What a driver does to the outside world, in the order it happens.
    [Sleep t] is [time.sleep(t + 0.1)]: the settle margin is constant, so
    the event records the computed sample time [t]. *)
Inductive event : Type :=
| Send (cmd : string)
| Query (cmd : string)
| Read
| Sleep (sample_time : Z).

Definition log : Type := list event.

(** The device answers a [query] or a [read] from everything that has
    happened on the channel so far, the pending request included. *)
Definition device : Type := log -> string.

(** A driver method: it reads and extends the log and returns or raises. *)
Definition M (A : Type) : Type := log -> result A * log.

Definition ret {A} (a : A) : M A := fun l => (Ok a, l).

Definition raise {A} (e : exn) : M A := fun l => (Err e, l).

Definition bind {A B} (m : M A) (k : A -> M B) : M B :=
  fun l => match m l with
           | (Ok a, l') => k a l'
           | (Err e, l') => (Err e, l')
           end.

(** A pure computation that may raise. *)
Definition lift {A} (r : result A) : M A := fun l => (r, l).

(** [try: m except: pass]. *)
Definition try_pass {A} (m : M A) : M unit :=
  fun l => (Ok tt, snd (m l)).

Definition sendcmd (cmd : string) : M unit :=
  fun l => (Ok tt, (l ++ [Send cmd])%list).

Definition query (dev : device) (cmd : string) : M string :=
  fun l => let l' := (l ++ [Query cmd])%list in (Ok (dev l'), l').

Definition read (dev : device) : M string :=
  fun l => let l' := (l ++ [Read])%list in (Ok (dev l'), l').

Definition sleep (sample_time : Z) : M unit :=
  fun l => (Ok tt, (l ++ [Sleep sample_time])%list).

End Chan.

Declare Scope py_scope.
Delimit Scope py_scope with py.
Notation "x <- m ;; k" := (Chan.bind m (fun x => k))
  (at level 61, m at next level, right associativity) : py_scope.
Notation "m ;; k" := (Chan.bind m (fun _ => k))
  (at level 61, right associativity) : py_scope.

(** ** srs830.py *)

Module SRS830.
Import Py Chan.
Local Open Scope py_scope.

(** [VALID_SAMPLE_RATES = [2.0**n for n in range(-4, 10)]] *)
Definition VALID_SAMPLE_RATES : list pyfloat :=
  map (fun n => Finite (2 ^ n)%Q) (range (-4) 10).

Module BufferMode.
Inductive t : Type := one_shot | loop.
Definition value (m : t) : Z :=
  match m with one_shot => 0 | loop => 1 end.
End BufferMode.

(** [BufferMode(code)]: the member with that value. *)
Definition BufferMode_of_value (code : Z) : result BufferMode.t :=
  if code =? 0 then Ok BufferMode.one_shot
  else if code =? 1 then Ok BufferMode.loop
  else Err ValueError.

(** What an enumeration class can be subscripted with. *)
Inductive subscript : Type :=
| Name (s : string)
| Number (z : Z).

Module FreqSource.
Inductive t : Type := external | internal.
Definition value (m : t) : Z :=
  match m with external => 0 | internal => 1 end.

Definition names : list (string * t) :=
  [("external", external); ("internal", internal)].

(** [FreqSource[k]]: subscripting an [enum] class looks a member up by
    its name, and a number is the name of none. *)
Definition getitem (k : subscript) : result t :=
  match k with
  | Name s =>
      match List.find (fun p => String.eqb (fst p) s) names with
      | Some p => Ok (snd p)
      | None => Err KeyError
      end
  | Number _ => Err KeyError
  end.
End FreqSource.

Module Coupling.
Inductive t : Type := ac | dc.
Definition value (m : t) : Z :=
  match m with ac => 0 | dc => 1 end.

(** [Coupling(code)]: the member with that value. *)
Definition of_value (code : Z) : result t :=
  if code =? 0 then Ok ac
  else if code =? 1 then Ok dc
  else Err ValueError.
End Coupling.

(** What a caller can assign to an enumeration-typed property. *)
Inductive value : Type :=
| AFreqSource (m : FreqSource.t)
| ACoupling (m : Coupling.t)
| ABufferMode (m : BufferMode.t)
| Plain (v : pyval).

(** The communicator classes [__init__] tells apart. *)
Inductive communicator : Type :=
| GPIBCommunicator
| SerialCommunicator
| OtherCommunicator.

Module Mode.
Inductive t : Type :=
| x | y | r | theta | xnoise | ynoise
| aux1 | aux2 | aux3 | aux4 | ref | ch1 | ch2 | none.

Definition eq_dec (a b : t) : {a = b} + {a <> b}.
Proof. decide equality. Defined.

Definition names : list (string * t) :=
  [("x", x); ("y", y); ("r", r); ("theta", theta); ("xnoise", xnoise);
   ("ynoise", ynoise); ("aux1", aux1); ("aux2", aux2); ("aux3", aux3);
   ("aux4", aux4); ("ref", ref); ("ch1", ch1); ("ch2", ch2); ("none", none)].

(** [SRS830.Mode[name]]: the member of that name, else [KeyError]. *)
Definition of_name (name : string) : result t :=
  match List.find (fun p => String.eqb (fst p) name) names with
  | Some p => Ok (snd p)
  | None => Err KeyError
  end.
End Mode.

(** An argument documented as "[SRS830.Mode] or [str]". *)
Inductive arg : Type :=
| Str (s : string)
| Member (m : Mode.t).

(** [a.lower()]: a string has the method, an enumeration member has not. *)
Definition lower_of (a : arg) : result string :=
  match a with
  | Str s => Ok (lower s)
  | Member _ => Err AttributeError
  end.

(** The preamble shared by the methods taking a mode:
    [if isinstance(mode, str): mode = mode.lower(); mode = SRS830.Mode[mode]] *)
Definition normalize (a : arg) : M Mode.t :=
  match a with
  | Str _ => s <- lift (lower_of a) ;; lift (Mode.of_name s)
  | Member m => ret m
  end.

(** The keys a table can be asked for: the tables are keyed by [Mode]
    members, and an integer is equal to none of them. *)
Inductive key : Type :=
| OfMode (m : Mode.t)
| OfInt (z : Z).

Definition key_eqb (a b : key) : bool :=
  match a, b with
  | OfMode m, OfMode n => if Mode.eq_dec m n then true else false
  | OfInt i, OfInt j => Z.eqb i j
  | _, _ => false
  end.

Definition dict : Type := list (key * Z).

(** [d[k]], raising [KeyError], and [k in d]. *)
Definition getitem (d : dict) (k : key) : result Z :=
  match List.find (fun p => key_eqb (fst p) k) d with
  | Some p => Ok (snd p)
  | None => Err KeyError
  end.

Definition has_key (d : dict) (k : key) : bool :=
  match getitem d k with Ok _ => true | Err _ => false end.

Definition of_modes (l : list (Mode.t * Z)) : dict :=
  map (fun p => (OfMode (fst p), snd p)) l.

Definition _XYR_MODE_MAP : dict :=
  of_modes [(Mode.x, 1); (Mode.y, 2); (Mode.r, 3)].

Definition _data_snap_modes : dict :=
  of_modes [(Mode.x, 1); (Mode.y, 2); (Mode.r, 3); (Mode.theta, 4);
            (Mode.aux1, 5); (Mode.aux2, 6); (Mode.aux3, 7); (Mode.aux4, 8);
            (Mode.ref, 9); (Mode.ch1, 10); (Mode.ch2, 11)].

Definition _valid_read_data_buffer : dict :=
  of_modes [(Mode.ch1, 1); (Mode.ch2, 2)].

Definition _valid_channel_display : list dict :=
  [of_modes [(Mode.x, 0); (Mode.r, 1); (Mode.xnoise, 2); (Mode.aux1, 3);
             (Mode.aux2, 4)];
   of_modes [(Mode.y, 0); (Mode.theta, 1); (Mode.ynoise, 2); (Mode.aux3, 3);
             (Mode.aux4, 4)]].

Definition _valid_channel_ratio : list dict :=
  [of_modes [(Mode.none, 0); (Mode.aux1, 1); (Mode.aux2, 2)];
   of_modes [(Mode.none, 0); (Mode.aux3, 1); (Mode.aux4, 2)]].

Definition _valid_channel : dict :=
  of_modes [(Mode.ch1, 1); (Mode.ch2, 2)].

(** [tables[i]] for a list of tables; an index in range is all the driver
    ever forms, [channel - 1] for a channel number 1 or 2. *)
Definition table_at (tables : list dict) (i : Z) : dict :=
  nth (Z.to_nat i) tables [].

Section Driver.

(** The device on the other end of the communicator. *)
Variable dev : device.

(** Interpreter and library functions the driver calls: the whitespace
    test behind [str.strip], [int(text)] and [float(text)] ([None] where
    Python raises [ValueError]), the text [format] gives a float,
    [numpy.fromstring(text, sep=',')], and [numpy.array([ch1, ch2])], the
    two rows of the array or what numpy raises (a numpy that refuses rows
    of unequal length raises [ValueError]). *)
Variable isspace : ascii -> bool.
Variable py_int : string -> option Z.
Variable py_float : string -> option pyfloat.
Variable repr_float : pyfloat -> string.
Variable fromstring : string -> list pyfloat.
Variable np_array :
  list pyfloat -> list pyfloat -> result (list pyfloat * list pyfloat).

Definition int (text : string) : result Z :=
  match py_int text with Some n => Ok n | None => Err ValueError end.

Definition float (text : string) : result pyfloat :=
  match py_float text with Some f => Ok f | None => Err ValueError end.

(** The text [format] substitutes for a value. *)
Definition str (v : pyval) : string :=
  match v with
  | PyInt z => str_of_int z
  | PyBool b => if b then "True" else "False"
  | PyFloat f => repr_float f
  | PyStr s => s
  | PyNone => "None"
  end.

(** *** Properties *)

(** [phase.setter], on the magnitude of the value rescaled to degrees. *)
Definition phase_setter (newval : pyfloat) : M unit :=
  if float_ge newval (of_int 730) || float_lt newval (of_int (-360))
  then raise ValueError
  else sendcmd ("PHAS " ++ repr_float newval).

(** [sample_rate.setter] *)
Definition sample_rate_setter (newval : pyval) : M unit :=
  newval <- match newval with
            | PyStr s =>
                let s := lower s in
                (if String.eqb s "trigger" then sendcmd "SRAT 14"
                 else ret tt) ;;
                ret (PyStr s)
            | _ => ret newval
            end ;;
  if contains VALID_SAMPLE_RATES newval
  then i <- lift (index VALID_SAMPLE_RATES newval) ;;
       sendcmd ("SRAT " ++ str_of_int i)
  else raise ValueError.

(** [buffer_mode.setter]; the argument is a [BufferMode] by its type, so
    the [isinstance] guard passes. *)
Definition buffer_mode_setter (newval : BufferMode.t) : M unit :=
  sendcmd ("SEND " ++ str_of_int (BufferMode.value newval)).

(** [data_transfer.setter] *)
Definition data_transfer_setter (newval : bool) : M unit :=
  sendcmd ("FAST " ++ str_of_int (if newval then 2 else 0)).

(** [not resp], for [resp] that starts out as [None]. *)
Definition not_ (resp : option string) : bool :=
  match resp with None => true | Some s => falsy s end.

(** The loop of [num_data_points],
    [while not resp and i < 10: resp = self.query('SPTS?').strip(); i += 1],
    on [remaining = 10 - i]. *)
Fixpoint poll (remaining : nat) (resp : option string) : M (option string) :=
  match remaining with
  | O => ret resp
  | S n =>
      if not_ resp
      then reply <- query dev "SPTS?" ;; poll n (Some (strip isspace reply))
      else ret resp
  end.

Definition num_data_points : M Z :=
  resp <- poll 10 None ;;
  match resp with
  | Some (String _ _ as text) => lift (int text)
  | _ => raise IOError
  end.

(** *** Methods *)

Definition auto_offset (mode : arg) : M unit :=
  mode <- normalize mode ;;
  if negb (has_key _XYR_MODE_MAP (OfMode mode)) then raise ValueError else
  mode <- lift (getitem _XYR_MODE_MAP (OfMode mode)) ;;
  sendcmd ("AOFF " ++ str_of_int mode).

Definition clear_data_buffer : M unit := sendcmd "REST".
Definition start_scan : M unit := sendcmd "STRD".
Definition pause : M unit := sendcmd "PAUS".

Definition init (sample_rate : pyval) (buffer_mode : BufferMode.t) : M unit :=
  clear_data_buffer ;;
  sample_rate_setter sample_rate ;;
  buffer_mode_setter buffer_mode.

Definition start_data_transfer : M unit :=
  data_transfer_setter true ;;
  start_scan.

Definition read_data_buffer (channel : arg) : M (list pyfloat) :=
  channel <- normalize channel ;;
  if negb (has_key _valid_read_data_buffer (OfMode channel))
  then raise ValueError else
  channel <- lift (getitem _valid_read_data_buffer (OfMode channel)) ;;
  N <- num_data_points ;;
  reply <- query dev ("TRCA?" ++ str_of_int channel ++ ",0," ++ str_of_int N) ;;
  ret (fromstring (strip isspace reply)).

(** [math.ceil(num_samples / sample_rate)] under true division, on the
    exact quotient. *)
Definition ceil_div (num_samples : Z) (sample_rate : pyval) : result Z :=
  match as_float sample_rate with
  | None => Err TypeError
  | Some (Finite q) =>
      if Qeq_bool q 0 then Err ZeroDivisionError
      else Ok (Qceiling (inject_Z num_samples / q))
  | Some NaN => Err ValueError
  | Some _ => Ok 0
  end.

(** [take_measurement]; [num_samples] is an [int], converted by [float]
    for the guard and divided as it is. *)
Definition take_measurement (sample_rate : pyval) (num_samples : Z)
  : M (list pyfloat * list pyfloat) :=
  numSamples <- lift (float_of_int num_samples) ;;
  if float_gt numSamples (of_int 16383) then raise ValueError else
  sample_time <- lift (ceil_div num_samples sample_rate) ;;
  init sample_rate BufferMode.one_shot ;;
  start_data_transfer ;;
  sleep sample_time ;;
  pause ;;
  try_pass num_data_points ;;
  ch1 <- read_data_buffer (Str "ch1") ;;
  ch2 <- read_data_buffer (Str "ch2") ;;
  lift (np_array ch1 ch2).

Definition set_offset_expand (mode : arg) (offset expand : pyval) : M unit :=
  mode <- normalize mode ;;
  if negb (has_key _XYR_MODE_MAP (OfMode mode)) then raise ValueError else
  mode <- lift (getitem _XYR_MODE_MAP (OfMode mode)) ;;
  if negb (is_int offset) || negb (is_float offset) then raise TypeError else
  if negb (is_int expand) || negb (is_float expand) then raise TypeError else
  over <- lift (gt_int offset 105) ;;
  outside <- (if over then ret true else lift (lt_int offset (-105))) ;;
  if outside then raise ValueError else
  let valid := [of_int 1; of_int 10; of_int 100] in
  if contains valid expand
  then expand <- lift (index valid expand) ;;
       sendcmd ("OEXP " ++ str_of_int mode ++ "," ++ str offset ++ ","
                        ++ str_of_int expand)
  else raise ValueError.

(** [map(float, texts)] *)
Fixpoint map_float (texts : list string) : result (list pyfloat) :=
  match texts with
  | [] => Ok []
  | t :: ts =>
      match float t, map_float ts with
      | Ok f, Ok fs => Ok (f :: fs)
      | Err e, _ | _, Err e => Err e
      end
  end.

(** [data_snap]: the second preamble reads [mode2 = mode1.lower()], and
    [mode1] is a [Mode] member by then; both codes are then taken from
    [_XYR_MODE_MAP]. *)
Definition data_snap (mode1 mode2 : arg) : M (list pyfloat) :=
  mode1 <- normalize mode1 ;;
  mode2 <- match mode2 with
           | Str _ => s <- lift (lower_of (Member mode1)) ;;
                      lift (Mode.of_name s)
           | Member m => ret m
           end ;;
  if negb (has_key _data_snap_modes (OfMode mode1))
     || negb (has_key _data_snap_modes (OfMode mode2))
  then raise ValueError else
  mode1 <- lift (getitem _XYR_MODE_MAP (OfMode mode1)) ;;
  mode2 <- lift (getitem _XYR_MODE_MAP (OfMode mode2)) ;;
  if mode1 =? mode2 then raise ValueError else
  result <- query dev ("SNAP? " ++ str_of_int mode1 ++ "," ++ str_of_int mode2) ;;
  lift (map_float (split "," result)).

(** [set_channel_display]: [display] is rebound to its integer code before
    the ratio table is indexed with it. *)
Definition set_channel_display (channel display ratio : arg) : M unit :=
  channel <- normalize channel ;;
  display <- normalize display ;;
  ratio <- normalize ratio ;;
  if negb (has_key _valid_channel (OfMode channel)) then raise ValueError else
  channel <- lift (getitem _valid_channel (OfMode channel)) ;;
  if negb (has_key (table_at _valid_channel_display (channel - 1))
                   (OfMode display))
  then raise ValueError else
  if negb (has_key (table_at _valid_channel_ratio (channel - 1))
                   (OfMode ratio))
  then raise ValueError else
  display <- lift (getitem (table_at _valid_channel_display (channel - 1))
                           (OfMode display)) ;;
  ratio <- lift (getitem (table_at _valid_channel_ratio (channel - 1))
                         (OfInt display)) ;;
  sendcmd ("DDEF " ++ str_of_int channel ++ "," ++ str_of_int display ++ ","
                   ++ str_of_int ratio).

(** *** The constructor and the remaining properties *)

(** [__init__], after the base class has stored the communicator. *)
Definition __init__ (filelike : communicator) (outx_mode : pyval) : M unit :=
  if is_literal outx_mode 1 then sendcmd "OUTX 1"
  else if is_literal outx_mode 2 then sendcmd "OUTX 2"
  else match filelike with
       | GPIBCommunicator => sendcmd "OUTX 1"
       | SerialCommunicator => sendcmd "OUTX 2"
       | OtherCommunicator => raise IOError
       end.

(** [frequency_source] (getter): [self.FreqSource[int(...)]]. *)
Definition frequency_source : M FreqSource.t :=
  reply <- query dev "FMOD?" ;;
  n <- lift (int reply) ;;
  lift (FreqSource.getitem (Number n)).

Definition frequency_source_setter (newval : value) : M unit :=
  match newval with
  | AFreqSource m => sendcmd ("FMOD " ++ str_of_int (FreqSource.value m))
  | _ => raise TypeError
  end.

(** [frequency], in hertz. *)
Definition frequency : M pyfloat :=
  reply <- query dev "FREQ?" ;; lift (float reply).

Definition frequency_setter (newval : pyfloat) : M unit :=
  sendcmd ("FREQ " ++ repr_float newval).

(** [phase] (getter), in degrees. *)
Definition phase : M pyfloat :=
  reply <- query dev "PHAS?" ;; lift (float reply).

(** The double the literal [0.004] denotes. *)
Definition lit_0_004 : pyfloat :=
  Finite (1152921504606847 # 288230376151711744).

(** [amplitude], in volts peak to peak; the setter works on the magnitude
    of the value rescaled to volts. *)
Definition amplitude : M pyfloat :=
  reply <- query dev "SLVL?" ;; lift (float reply).

Definition amplitude_setter (newval : pyfloat) : M unit :=
  if float_gt newval (of_int 5) || float_lt newval lit_0_004
  then raise ValueError
  else sendcmd ("SLVL " ++ repr_float newval).

Definition input_shield_ground : M bool :=
  reply <- query dev "IGND?" ;;
  n <- lift (int reply) ;;
  ret (n =? 1).

Definition input_shield_ground_setter (newval : pyval) : M unit :=
  sendcmd ("IGND " ++ str_of_int (if truthy newval then 1 else 0)).

Definition coupling : M Coupling.t :=
  reply <- query dev "ICPL?" ;;
  n <- lift (int reply) ;;
  lift (Coupling.of_value n).

Definition coupling_setter (newval : value) : M unit :=
  match newval with
  | ACoupling m => sendcmd ("ICPL " ++ str_of_int (Coupling.value m))
  | _ => raise TypeError
  end.

(** [sample_rate] (getter), in hertz: [VALID_SAMPLE_RATES[int(...)]].
    The result [None] is the [IndexError] of the subscript. *)
Definition sample_rate : M (option pyfloat) :=
  reply <- query dev "SRAT?" ;;
  n <- lift (int reply) ;;
  ret (item VALID_SAMPLE_RATES n).

Definition buffer_mode : M BufferMode.t :=
  reply <- query dev "SEND?" ;;
  n <- lift (int reply) ;;
  lift (BufferMode_of_value n).

Definition data_transfer : M bool :=
  reply <- query dev "FAST?" ;;
  n <- lift (int reply) ;;
  ret (n =? 2).

Definition auto_phase : M unit := sendcmd "APHS".

End Driver.
End SRS830.

(** ** tc200.py *)

Module TC200.
Import Py Chan.
Local Open Scope py_scope.

Module Mode.
Inductive t : Type := normal | cycle.

(** [TC200.Mode[code]]: the member with that integer value. *)
Definition of_value (code : Z) : result t :=
  if code =? 0 then Ok normal
  else if code =? 1 then Ok cycle
  else Err ValueError.
End Mode.

(** [self.terminator = "\r"] and [self.end_terminator = ">"], set by
    [__init__]. *)
Definition terminator : string := String (ascii_of_nat 13) EmptyString.
Definition end_terminator : string := ">".

(** What [check_command] returns.  The getters test the result with
    [response is "CMD_NOT_DEFINED"], an identity that holds of the literal
    [check_command] assigns and of no text cut out of a reply, so the two
    literals and a payload are told apart by constructor. *)
Inductive response : Type :=
| CMD_NOT_DEFINED
| CMD_ARG_INVALID
| Payload (output_str : string).

Definition text (resp : response) : string :=
  match resp with
  | CMD_NOT_DEFINED => "CMD_NOT_DEFINED"
  | CMD_ARG_INVALID => "CMD_ARG_INVALID"
  | Payload output_str => output_str
  end.

(** Units of the quantities the getters return. *)
Inductive units : Type := Hz | W | degC | degF | degK.

Definition quantity : Type := (pyfloat * units)%type.

(** The double the literal [0.1] denotes. *)
Definition lit_0_1 : pyfloat := Finite (3602879701896397 # 36028797018963968).

(** [v << k]: integers shift, text does not. *)
Definition lshift (v : pyval) (k : Z) : result Z :=
  match v with
  | PyInt n => Ok (Z.shiftl n k)
  | PyBool b => Ok (Z.shiftl (if b then 1 else 0) k)
  | _ => Err TypeError
  end.

(** The truth value of what the [enable] getter returns, [None]
    included. *)
Definition truthy_status (current : option bool) : bool :=
  match current with Some b => b | None => false end.

(** The attributes of the class that are quantity-valued properties. *)
Inductive attribute : Type := frequency | max_power | max_temperature.

Definition attribute_eqb (a b : attribute) : bool :=
  match a, b with
  | frequency, frequency | max_power, max_power
  | max_temperature, max_temperature => true
  | _, _ => false
  end.

Section Driver.
Variable dev : device.
Variable py_int : string -> option Z.

Definition int (s : string) : result Z :=
  match py_int s with Some n => Ok n | None => Err ValueError end.

(** [check_command]: the reply to [query] is overwritten by what [read]
    returns, and that is the reply classified. *)
Definition check_command (command : string) : M response :=
  _ <- query dev command ;;
  response <- read dev ;;
  let cmd_find := find response "CMD_NOT_DEFINED" in
  if cmd_find =? -1 then
    let error_find := find response "CMD_ARG_INVALID" in
    if error_find =? -1 then
      let output_str := replace response command "" in
      let output_str := replace output_str terminator "" in
      let output_str := replace output_str end_terminator "" in
      ret (Payload output_str)
    else ret CMD_ARG_INVALID
  else ret CMD_NOT_DEFINED.

(** [mode] (getter); [None] is the implicit return of the branch not
    taken. *)
Definition mode : M (option Mode.t) :=
  response <- check_command "stat?" ;;
  match response with
  | CMD_NOT_DEFINED => ret None
  | _ =>
      n <- lift (int (text response)) ;;
      let response_code := (Z.shiftl n 1) mod 2 in
      m <- lift (Mode.of_value response_code) ;;
      ret (Some m)
  end.

(** [enable] (getter), the sibling reading bit 0 of the same status. *)
Definition enable : M (option bool) :=
  response <- check_command "stat?" ;;
  match response with
  | CMD_NOT_DEFINED => ret None
  | _ =>
      n <- lift (int (text response)) ;;
      ret (Some (n mod 2 =? 1))
  end.

(** *** The remaining properties *)

Variable py_float : string -> option pyfloat.
Variable repr_float : pyfloat -> string.

Definition float (s : string) : result pyfloat :=
  match py_float s with Some f => Ok f | None => Err ValueError end.

(** [enable.setter]: [ens] toggles the heater, so the status is read and
    the command sent when it differs from what is asked.  [and] evaluates
    [self.enable] only when its left operand allows. *)
Definition enable_setter (newval : pyval) : M unit :=
  match newval with
  | PyBool true =>
      current <- enable ;;
      if negb (truthy_status current) then sendcmd "ens" else ret tt
  | PyBool false =>
      current <- enable ;;
      if truthy_status current then sendcmd "ens" else ret tt
  | _ => raise TypeError
  end.

(** [degrees] (getter): the shifts are applied to [response], the text
    [check_command] returned. *)
Definition degrees : M (option units) :=
  response <- check_command "stat?" ;;
  match response with
  | CMD_NOT_DEFINED => ret None
  | _ =>
      c <- lift (lshift (PyStr (text response)) 4) ;;
      if negb (c mod 2 =? 0) then ret (Some degC) else
      f <- lift (lshift (PyStr (text response)) 5) ;;
      if negb (f mod 2 =? 0) then ret (Some degF) else ret (Some degK)
  end.

(** The gain and [beta] setters, on the [int] they are documented for. *)
Definition p_setter (newval : Z) : M unit :=
  if newval <? 1 then raise ValueError else
  if newval >? 250 then raise ValueError else
  sendcmd ("pvalue=" ++ str_of_int newval).

Definition i_setter (newval : Z) : M unit :=
  if newval <? 0 then raise ValueError else
  if newval >? 250 then raise ValueError else
  sendcmd ("ivalue=" ++ str_of_int newval).

Definition d_setter (newval : Z) : M unit :=
  if newval <? 0 then raise ValueError else
  if newval >? 250 then raise ValueError else
  sendcmd ("dvalue=" ++ str_of_int newval).

Definition beta_setter (newval : Z) : M unit :=
  if newval <? 2000 then raise ValueError else
  if newval >? 6000 then raise ValueError else
  sendcmd ("beta=" ++ str_of_int newval).

(** The quantity-valued properties.  Each getter multiplies
    [float(response)] by a unit; each setter works on the magnitude of the
    value rescaled to the unit it assumes. *)
Definition frequency_fget : M (option quantity) :=
  response <- check_command "freq?" ;;
  match response with
  | CMD_NOT_DEFINED => ret None
  | _ => f <- lift (float (text response)) ;; ret (Some (f, Hz))
  end.

Definition frequency_fset (newval : pyfloat) : M unit :=
  if float_lt newval (of_int 5) then raise ValueError else
  if float_gt newval (of_int 150) then raise ValueError else
  sendcmd ("freq=" ++ repr_float newval).

(** The getter of line 264 and the setter of line 276, both named
    [max_power]. *)
Definition max_power_fget : M (option quantity) :=
  response <- check_command "PMAX?" ;;
  match response with
  | CMD_NOT_DEFINED => ret None
  | _ => f <- lift (float (text response)) ;; ret (Some (f, W))
  end.

Definition max_power_fset (newval : pyfloat) : M unit :=
  if float_lt newval lit_0_1 then raise ValueError else
  if float_gt newval (of_int 18) then raise ValueError else
  sendcmd ("PMAX=" ++ repr_float newval).

(** The getter of line 285, named [max_temperature], and the function of
    line 297, named [max_power] and decorated [@max_temperature.setter]. *)
Definition max_temperature_fget : M (option quantity) :=
  response <- check_command "TMAX?" ;;
  match response with
  | CMD_NOT_DEFINED => ret None
  | _ => f <- lift (float (text response)) ;; ret (Some (f, degC))
  end.

Definition max_temperature_fset (newval : pyfloat) : M unit :=
  if float_lt newval (of_int 20) then raise ValueError else
  if float_gt newval (of_int 205) then raise ValueError else
  sendcmd ("TMAX=" ++ repr_float newval).

(** A [property] object, and the names of the class body bound to one of
    these. *)
Record property : Type := {
  fget : M (option quantity);
  fset : option (pyfloat -> M unit)
}.

Definition namespace : Type := list (attribute * property).

Definition lookup (ns : namespace) (name : attribute) : option property :=
  option_map snd (List.find (fun b => attribute_eqb (fst b) name) ns).

(** [@property def name(self)]: [name] is bound to a property with that
    getter and no setter. *)
Definition def_property (name : attribute) (g : M (option quantity))
    (ns : namespace) : namespace :=
  (name, {| fget := g; fset := None |}) :: ns.

(** [@owner.setter def name(self, newval)]: [name] is bound to a copy of
    the property [owner] is bound to, with the function for setter. *)
Definition def_setter (owner name : attribute) (f : pyfloat -> M unit)
    (ns : namespace) : namespace :=
  match lookup ns owner with
  | Some prop => (name, {| fget := fget prop; fset := Some f |}) :: ns
  | None => ns
  end.

(** The class body, in the order of the source: lines 71-91 and
    263-303. *)
Definition class_body : namespace :=
  def_setter max_temperature max_power max_temperature_fset
    (def_property max_temperature max_temperature_fget
       (def_setter max_power max_power max_power_fset
          (def_property max_power max_power_fget
             (def_setter frequency frequency frequency_fset
                (def_property frequency frequency_fget []))))).

(** Reading and assigning one of these attributes of an instance. *)
Definition getattr (name : attribute) : M (option quantity) :=
  match lookup class_body name with
  | Some prop => fget prop
  | None => raise AttributeError
  end.

Definition setattr (name : attribute) (newval : pyfloat) : M unit :=
  match lookup class_body name with
  | Some {| fset := Some f |} => f newval
  | _ => raise AttributeError
  end.

End Driver.
End TC200.

(** ** Notions the statements are phrased in *)

Module Trace.
Import Py Chan.

(** [k] successive point-count queries. *)
Definition polls (k : nat) : log := repeat (Query "SPTS?") k.

(** What [take_measurement(1, 10)] puts on the channel up to and
    including the pause. *)
Definition acquisition : log :=
  [Send "REST"; Send "SRAT 4"; Send "SEND 0"; Send "FAST 2"; Send "STRD";
   Sleep 10; Send "PAUS"].

(** The buffer query of channel [channel] for [N] points. *)
Definition trca (channel N : Z) : event :=
  Query ("TRCA?" ++ str_of_int channel ++ ",0," ++ str_of_int N).

(** [pat] occurs in [s]. *)
Definition occurs (pat s : string) : Prop :=
  exists before after, s = before ++ pat ++ after.

(** [s] without the character [c]. *)
Fixpoint remove_char (c : ascii) (s : string) : string :=
  match s with
  | EmptyString => EmptyString
  | String d s' =>
      if Ascii.eqb d c then remove_char c s' else String d (remove_char c s')
  end.

(** The point-count poll started after [l] stops at its [k]-th query: the
    stripped replies before it are empty, and it is the tenth if its own
    is empty too. *)
Definition stops_at (dev : device) (isspace : ascii -> bool)
    (l : log) (k : nat) : Prop :=
  (1 <= k <= 10)%nat /\
  (forall j, (1 <= j < k)%nat -> strip isspace (dev (l ++ polls j)%list) = "") /\
  (strip isspace (dev (l ++ polls k)%list) = "" -> k = 10%nat).

(** What a poll makes of the stripped reply it stopped at. *)
Definition point_count (py_int : string -> option Z) (reply : string)
  : result Z :=
  match reply with
  | EmptyString => Err IOError
  | _ => match py_int reply with Some n => Ok n | None => Err ValueError end
  end.

(** An event that asks the device for a reply. *)
Definition is_query (e : event) : bool :=
  match e with Query _ => true | _ => false end.

(** The events of [take_measurement] up to and including the pause, for
    the rate of index [i] and the sample time [t]. *)
Definition acquisition_at (i t : Z) : log :=
  [Send "REST"; Send ("SRAT " ++ str_of_int i); Send "SEND 0"; Send "FAST 2";
   Send "STRD"; Sleep t; Send "PAUS"].

End Trace.

(** ** A concrete interpreter and concrete devices, for the examples *)

Module Demo.
Import Py Chan.

(** ASCII whitespace: space, and tab to carriage return. *)
Definition isspace (c : ascii) : bool :=
  let n := nat_of_ascii c in
  ((n =? 32) || ((9 <=? n) && (n <=? 13)))%nat.

Definition digit (c : ascii) : option Z :=
  let n := nat_of_ascii c in
  if ((48 <=? n) && (n <=? 57))%nat then Some (Z.of_nat (n - 48)) else None.

Fixpoint digits (acc : Z) (s : string) : option Z :=
  match s with
  | EmptyString => Some acc
  | String c s' =>
      match digit c with
      | Some d => digits (10 * acc + d) s'
      | None => None
      end
  end.

(** [int] on signed decimal numerals. *)
Definition py_int (s : string) : option Z :=
  match s with
  | EmptyString => None
  | String "-" (String _ _ as t) => option_map Z.opp (digits 0 t)
  | String "+" (String _ _ as t) => digits 0 t
  | _ => digits 0 s
  end.

(** [float], [format] and [numpy.fromstring] on integral values. *)
Definition py_float (s : string) : option pyfloat :=
  option_map of_int (py_int s).

Definition repr_float (f : pyfloat) : string :=
  match f with
  | Finite q => str_of_int (Qfloor q) ++ ".0"
  | PosInf => "inf"
  | NegInf => "-inf"
  | NaN => "nan"
  end.

Fixpoint floats (texts : list string) : list pyfloat :=
  match texts with
  | [] => []
  | t :: ts =>
      match py_float t with
      | Some f => f :: floats ts
      | None => []
      end
  end.

Definition fromstring (s : string) : list pyfloat := floats (split "," s).

(** A numpy that takes any two rows. *)
Definition np_array (ch1 ch2 : list pyfloat)
  : result (list pyfloat * list pyfloat) := Ok (ch1, ch2).

(** A device that never has anything to say. *)
Definition silent : device := fun _ => "".

(** The number of replies a log has asked for. *)
Fixpoint asked (l : log) : nat :=
  match l with
  | [] => O
  | (Query _ | Read) :: l' => S (asked l')
  | _ :: l' => asked l'
  end.

(** A device that answers from a script, then falls silent. *)
Definition scripted (replies : list string) : device :=
  fun l => nth (pred (asked l)) replies "".

End Demo.

(** ** Properties of the runtime functions *)

Module PyFacts.
Import Py Trace.

Lemma prefix_empty (s : string) : prefix "" s = true.
Proof. now destruct s. Qed.

Lemma prefix_iff (p s : string) :
  prefix p s = true <-> exists rest, s = p ++ rest.
Proof.
  revert s; induction p as [|a p IH]; intros s.
  - rewrite prefix_empty. split; [intros _; now exists s | reflexivity].
  - destruct s as [|b s]; simpl.
    + split; [discriminate | intros [rest H]; discriminate].
    + destruct (ascii_dec a b) as [->|Hab].
      * split.
        -- intros H. apply IH in H as [rest ->]. now exists rest.
        -- intros [rest H]. apply IH. exists rest. now injection H.
      * split; [discriminate | intros [rest H]; injection H; congruence].
Qed.

Lemma occurs_here (pat s : string) : prefix pat s = true -> occurs pat s.
Proof.
  intros H; apply prefix_iff in H as [rest ->].
  now exists ""%string, rest.
Qed.

Lemma occurs_later (pat : string) (c : ascii) (s : string) :
  occurs pat s -> occurs pat (String c s).
Proof.
  intros (b & a & ->). now exists (String c b), a.
Qed.

Lemma occurs_inv (pat : string) (c : ascii) (s : string) :
  occurs pat (String c s) -> prefix pat (String c s) = true \/ occurs pat s.
Proof.
  intros (b & a & H). destruct b as [|d b]; simpl in H.
  - left. apply prefix_iff. now exists a.
  - right. injection H as _ ->. now exists b, a.
Qed.

Lemma find_from_bound (pat s : string) (i : Z) :
  find_from pat s i = -1 \/ i <= find_from pat s i.
Proof.
  revert i; induction s as [|c s IH]; intros i; cbn [find_from].
  - destruct (prefix pat ""); [right; lia | now left].
  - destruct (prefix pat (String c s)); [right; lia|].
    destruct (IH (i + 1)) as [H|H]; [now left | right; lia].
Qed.

Lemma find_from_spec (pat s : string) (i : Z) :
  0 <= i -> (find_from pat s i = -1 <-> ~ occurs pat s).
Proof.
  revert i; induction s as [|c s IH]; intros i Hi; cbn [find_from].
  - destruct (prefix pat "") eqn:E.
    + split; [lia | intros H; elim H; now apply occurs_here].
    + split; [intros _ (b & a & H) | reflexivity].
      destruct b; simpl in H.
      * assert (prefix pat "" = true) by (apply prefix_iff; now exists a).
        congruence.
      * discriminate.
  - destruct (prefix pat (String c s)) eqn:E.
    + split; [lia | intros H; elim H; now apply occurs_here].
    + rewrite (IH (i + 1)) by lia. split; intros H Hocc; apply H.
      * apply occurs_inv in Hocc as [Hp|Ho]; [congruence | exact Ho].
      * now apply occurs_later.
Qed.

(** [find] answers -1 exactly when the pattern does not occur. *)
Lemma find_spec (s pat : string) : find s pat = -1 <-> ~ occurs pat s.
Proof. unfold find. apply find_from_spec. lia. Qed.

Lemma find_eqb (s pat : string) :
  (find s pat =? -1) = true <-> ~ occurs pat s.
Proof. rewrite Z.eqb_eq. apply find_spec. Qed.

(** Replacing a one-character string by nothing deletes that character. *)
Lemma replace_char (c : ascii) (s : string) :
  replace s (String c EmptyString) "" = remove_char c s.
Proof.
  unfold replace. induction s as [|d s IH]; simpl; [reflexivity|].
  destruct (ascii_dec c d) as [->|Hcd].
  - rewrite prefix_empty, Ascii.eqb_refl. exact IH.
  - destruct (Ascii.eqb d c) eqn:E.
    + apply Ascii.eqb_eq in E. congruence.
    + now rewrite IH.
Qed.

Lemma float_gt_of_int (a b : Z) : float_gt (of_int a) (of_int b) = (b <? a).
Proof.
  unfold float_gt, float_lt, of_int, float_compare.
  unfold Qcompare, inject_Z; simpl. rewrite !Z.mul_1_r.
  unfold Z.ltb. reflexivity.
Qed.

Lemma round_small z : Z.abs z < 2 ^ 53 -> round_to_double z = z.
Proof.
  intros H. unfold round_to_double.
  destruct (Z.ltb_spec (Z.abs z) (2 ^ 53)); [reflexivity | lia].
Qed.

(** The mantissa and the exponent [float] gives a large integer. *)
Lemma round_large z :
  2 ^ 53 <= z ->
  exists e m',
    e = Z.log2 z - 52 /\ 1 <= e /\
    round_to_double z = m' * 2 ^ e /\
    z / 2 ^ e <= m' <= z / 2 ^ e + 1 /\
    2 ^ 52 <= z / 2 ^ e < 2 ^ 53 /\
    (m' = z / 2 ^ e + 1 <->
     2 ^ (e - 1) < z mod 2 ^ e \/
     (2 ^ (e - 1) = z mod 2 ^ e /\ Z.even (z / 2 ^ e) = false)).
Proof.
  intros Hz.
  assert (Hpos : 0 < z) by (assert (0 < 2 ^ 53) by (apply Z.pow_pos_nonneg; lia); lia).
  destruct (Z.log2_spec z Hpos) as [Hlo Hhi].
  assert (HL : 53 <= Z.log2 z).
  { apply Z.log2_le_pow2; lia. }
  set (e := Z.log2 z - 52) in *.
  assert (He : 1 <= e) by (unfold e; lia).
  assert (Hpe : 0 < 2 ^ e) by (apply Z.pow_pos_nonneg; lia).
  assert (Elo : 2 ^ Z.log2 z = 2 ^ 52 * 2 ^ e).
  { rewrite <- Z.pow_add_r by lia. f_equal. unfold e. lia. }
  assert (Ehi : 2 ^ Z.succ (Z.log2 z) = 2 ^ 53 * 2 ^ e).
  { rewrite <- Z.pow_add_r by lia. f_equal. unfold e. lia. }
  assert (Hm : 2 ^ 52 <= z / 2 ^ e < 2 ^ 53).
  { split.
    - apply Z.div_le_lower_bound; lia.
    - apply Z.div_lt_upper_bound; lia. }
  unfold round_to_double. rewrite (Z.abs_eq z) by lia.
  destruct (Z.ltb_spec z (2 ^ 53)); [lia|].
  fold e. rewrite (Z.sgn_pos z Hpos), Z.mul_1_l.
  eexists e, _. split; [reflexivity|]. split; [exact He|].
  split; [reflexivity|]. split; [|split; [exact Hm|]].
  - destruct (Z.ltb_spec (z mod 2 ^ e) (2 ^ (e - 1))); [lia|].
    destruct (Z.ltb_spec (2 ^ (e - 1)) (z mod 2 ^ e)); [lia|].
    destruct (Z.even (z / 2 ^ e)); lia.
  - destruct (Z.ltb_spec (z mod 2 ^ e) (2 ^ (e - 1))); [lia|].
    destruct (Z.ltb_spec (2 ^ (e - 1)) (z mod 2 ^ e)); [lia|].
    destruct (Z.even (z / 2 ^ e)) eqn:Ev; split; intros Hx; lia.
Qed.

Lemma round_large_bounds z :
  2 ^ 53 <= z ->
  2 ^ 53 <= round_to_double z /\
  (z < 2 ^ 1024 - 2 ^ 970 <-> round_to_double z < 2 ^ 1024).
Proof.
  intros Hz.
  destruct (round_large z Hz) as (e & m' & He & He1 & Hr & Hm' & Hm & Hup).
  assert (Hpos : 0 < z) by (assert (0 < 2 ^ 53) by (apply Z.pow_pos_nonneg; lia); lia).
  destruct (Z.log2_spec z Hpos) as [Hlo Hhi].
  assert (Hpe : 0 < 2 ^ e) by (apply Z.pow_pos_nonneg; lia).
  assert (Elo : 2 ^ Z.log2 z = 2 ^ 52 * 2 ^ e).
  { rewrite <- Z.pow_add_r by lia. f_equal. lia. }
  assert (Ehi : 2 ^ Z.succ (Z.log2 z) = 2 ^ 53 * 2 ^ e).
  { rewrite <- Z.pow_add_r by lia. f_equal. lia. }
  assert (Hge : 2 ^ 52 * 2 ^ e <= round_to_double z) by (rewrite Hr; nia).
  assert (Hle : round_to_double z <= 2 ^ 53 * 2 ^ e) by (rewrite Hr; nia).
  split.
  - assert (2 * 1 <= 2 ^ e) by
      (change (2 * 1) with (2 ^ 1); apply Z.pow_le_mono_r; lia).
    change (2 ^ 53) with (2 ^ 52 * 2). nia.
  - destruct (Z.lt_trichotomy (Z.log2 z) 1023) as [HL | [HL | HL]].
    + assert (2 ^ Z.succ (Z.log2 z) <= 2 ^ 1023)
        by (apply Z.pow_le_mono_r; lia).
      assert (2 ^ 1023 < 2 ^ 1024 - 2 ^ 970) by (vm_compute; reflexivity).
      assert (2 ^ 1023 < 2 ^ 1024) by (vm_compute; reflexivity).
      split; intros; lia.
    + assert (E : e = 971) by lia. subst e.
      replace (Z.log2 z - 52) with 971 in * by lia.
      change (971 - 1) with 970 in Hup.
      clear Hlo Hhi Elo Ehi Hge Hle HL He1.
      pose proof (Z.div_mod z (2 ^ 971) ltac:(lia)) as Hdm.
      pose proof (Z.mod_pos_bound z (2 ^ 971) Hpe) as Hr0.
      assert (EP : 2 ^ 1024 = 2 ^ 53 * 2 ^ 971) by (vm_compute; reflexivity).
      assert (EH : 2 ^ 971 = 2 * 2 ^ 970) by (vm_compute; reflexivity).
      rewrite Hr, EP.
      set (q := z / 2 ^ 971) in *. set (r := z mod 2 ^ 971) in *.
      set (P := 2 ^ 971) in *. set (H := 2 ^ 970) in *.
      destruct (Z.eq_dec q (2 ^ 53 - 1)) as [Hq | Hq].
      * assert (Ev : Z.even q = false) by (rewrite Hq; vm_compute; reflexivity).
        rewrite Ev in Hup.
        destruct (Z.eq_dec m' (q + 1)) as [Hm1 | Hm1].
        -- pose proof (proj1 Hup Hm1) as Hu. split; intros; nia.
        -- assert (Hnu : ~ (H < r \/ H = r /\ false = false))
             by (intros Hu; apply Hm1, Hup, Hu).
           assert (r < H) by (destruct (Z.lt_ge_cases r H) as [?|?]; [assumption|];
             exfalso; apply Hnu;
             destruct (Z.eq_dec H r); [right; split; auto | left; lia]).
           split; intros; nia.
      * assert (q <= 2 ^ 53 - 2) by lia. split; intros; nia.
    + assert (2 ^ 1024 <= 2 ^ Z.log2 z) by (apply Z.pow_le_mono_r; lia).
      assert (0 < 2 ^ 970) by (vm_compute; reflexivity).
      split; intros; lia.
Qed.


Lemma float_of_int_small (z : Z) :
  Z.abs z < 2 ^ 53 -> float_of_int z = Ok (of_int z).
Proof.
  intros H. unfold float_of_int. cbv zeta. rewrite (round_small z H).
  assert (2 ^ 53 < 2 ^ 1024) by (vm_compute; reflexivity).
  destruct (Z.ltb_spec (Z.abs z) (2 ^ 1024)); [reflexivity | lia].
Qed.

(** From 2^1024 - 2^970 on, an integer rounds beyond the largest double. *)
Lemma float_of_int_large (z : Z) :
  2 ^ 53 <= z ->
  2 ^ 53 <= round_to_double z /\
  float_of_int z =
    if z <? 2 ^ 1024 - 2 ^ 970 then Ok (of_int (round_to_double z))
    else Err OverflowError.
Proof.
  intros H. destruct (round_large_bounds z H) as [Hge Hiff].
  split; [exact Hge|].
  assert (0 < 2 ^ 53) by (vm_compute; reflexivity).
  unfold float_of_int. cbv zeta. rewrite (Z.abs_eq (round_to_double z)) by lia.
  destruct (Z.ltb_spec z (2 ^ 1024 - 2 ^ 970)) as [Hz|Hz];
    destruct (Z.ltb_spec (round_to_double z) (2 ^ 1024)) as [Hr|Hr];
    try reflexivity; exfalso.
  - apply Hiff in Hz. lia.
  - apply Hiff in Hr. lia.
Qed.

Lemma index_of_member (l : list pyfloat) (v : pyval) (z : Z) :
  contains l v = true -> exists i, index_from z l v = Ok i.
Proof.
  unfold contains. revert z; induction l as [|f l IH]; intros z; simpl.
  - discriminate.
  - destruct (eq_float v f); simpl; [now exists z | apply IH].
Qed.

Lemma float_compare_antisym (x y : pyfloat) :
  float_compare y x = option_map CompOpp (float_compare x y).
Proof.
  destruct x, y; simpl; try reflexivity.
  now rewrite Qcompare_antisym.
Qed.

Lemma float_le_not_lt (x y : pyfloat) :
  float_le x y = true -> float_lt y x = false.
Proof.
  unfold float_le, float_lt. rewrite (float_compare_antisym x y).
  now destruct (float_compare x y) as [[]|].
Qed.

Lemma float_lt_not_le (x y : pyfloat) :
  float_lt x y = true -> float_le y x = false.
Proof.
  unfold float_le, float_lt. rewrite (float_compare_antisym x y).
  now destruct (float_compare x y) as [[]|].
Qed.

End PyFacts.

(** ** The lock-in amplifier *)

Section SRS830_Facts.
Import Py Chan Trace.
Variable dev : device.
Variable isspace : ascii -> bool.
Variable py_int : string -> option Z.
Variable py_float : string -> option pyfloat.
Variable repr_float : pyfloat -> string.
Variable fromstring : string -> list pyfloat.
Variable np_array :
  list pyfloat -> list pyfloat -> result (list pyfloat * list pyfloat).

Local Abbreviation poll := (SRS830.poll dev isspace).
Local Abbreviation num_data_points := (SRS830.num_data_points dev isspace py_int).
Local Abbreviation read_data_buffer :=
  (SRS830.read_data_buffer dev isspace py_int fromstring).
Local Abbreviation take_measurement :=
  (SRS830.take_measurement dev isspace py_int fromstring np_array).

(** The stripped reply to the [j]-th point-count query issued after [l]. *)
Local Abbreviation answer l j := (strip isspace (dev (l ++ polls j)%list)).

Lemma polls_snoc (l : log) (j : nat) :
  ((l ++ [Query "SPTS?"]) ++ polls j = l ++ polls (S j))%list.
Proof. now rewrite <- app_assoc. Qed.

(** The loop queries until a reply is non-empty or the attempts are used
    up, and hands back the last stripped reply. *)
Lemma poll_trace (n : nat) : forall (resp : option string) (l : log),
  SRS830.not_ resp = true ->
  exists k : nat,
    (1 <= k <= S n)%nat /\
    poll (S n) resp l = (Ok (Some (answer l k)), (l ++ polls k)%list) /\
    (forall j, (1 <= j < k)%nat -> answer l j = "") /\
    (falsy (answer l k) = true -> k = S n).
Proof.
  induction n as [|n IH]; intros resp l Hresp.
  - exists 1%nat. cbn [SRS830.poll]. rewrite Hresp.
    split; [lia|]. split; [reflexivity|]. split; intros; lia.
  - change (poll (S (S n)) resp l)
      with ((if SRS830.not_ resp
             then Chan.bind (query dev "SPTS?")
                    (fun reply => poll (S n) (Some (strip isspace reply)))
             else ret resp) l).
    rewrite Hresp. unfold Chan.bind at 1, query at 1.
    destruct (falsy (strip isspace (dev (l ++ [Query "SPTS?"])%list))) eqn:E.
    + destruct (IH (Some (strip isspace (dev (l ++ [Query "SPTS?"])%list)))
                   (l ++ [Query "SPTS?"])%list E)
        as (k & Hk & Hrun & Hempty & Hlast).
      exists (S k). rewrite Hrun, !polls_snoc.
      split; [lia|]. split; [reflexivity|]. split.
      * intros j Hj. destruct j as [|[|j]]; [lia| |].
        -- unfold polls; simpl. now destruct (strip isspace _).
        -- rewrite <- polls_snoc. apply Hempty. lia.
      * intros H. rewrite <- polls_snoc in H. apply Hlast in H. lia.
    + exists 1%nat. cbn [SRS830.poll]. unfold SRS830.not_. rewrite E.
      split; [lia|]. split; [reflexivity|]. split.
      * intros j Hj; lia.
      * unfold polls; simpl. intros H. congruence.
Qed.

(** Where [num_data_points] leaves the channel and what it can raise. *)
Lemma num_data_points_run (l : log) :
  exists k : nat,
    (1 <= k <= 10)%nat /\
    snd (num_data_points l) = (l ++ polls k)%list /\
    (forall j, (1 <= j < k)%nat -> answer l j = "") /\
    (falsy (answer l k) = true ->
       k = 10%nat /\ fst (num_data_points l) = Err IOError) /\
    (falsy (answer l k) = false ->
       fst (num_data_points l) = SRS830.int py_int (answer l k)).
Proof.
  destruct (poll_trace 9 None l eq_refl) as (k & Hk & Hrun & Hempty & Hlast).
  exists k. unfold SRS830.num_data_points, Chan.bind. rewrite Hrun.
  split; [lia|]. destruct (answer l k) eqn:E; simpl.
  - split; [reflexivity|]. split; [assumption|]. split.
    + intros _. split; [now apply Hlast | reflexivity].
    + discriminate.
  - split; [reflexivity|]. split; [assumption|]. split.
    + discriminate.
    + reflexivity.
Qed.

(** C8.  Whatever the device replies, [num_data_points] issues the
    point-count query [SPTS?] at least once and at most ten times and
    nothing else; every reply before the last is empty once stripped; if
    the last one is empty too, all ten attempts were used and [IOError] is
    raised; otherwise the result is [int] of that first non-empty reply. *)
Theorem num_data_points_bounded_retry (l : log) :
  exists k : nat,
    (1 <= k <= 10)%nat /\
    snd (num_data_points l) = (l ++ polls k)%list /\
    (forall j, (1 <= j < k)%nat -> answer l j = "") /\
    if falsy (answer l k)
    then k = 10%nat /\ fst (num_data_points l) = Err IOError
    else fst (num_data_points l) = SRS830.int py_int (answer l k).
Proof.
  destruct (num_data_points_run l) as (k & Hk & Hlog & Hempty & Hnone & Hsome).
  exists k. split; [lia|]. split; [assumption|]. split; [assumption|].
  destruct (falsy (answer l k)); auto.
Qed.

(** A buffer read polls the point count, then queries the buffer with
    it; it fails only where its own point-count query does. *)
Lemma read_data_buffer_run (name : string) (c : Z) (l : log) :
  (name, c) = ("ch1", 1) \/ (name, c) = ("ch2", 2) ->
  exists k : nat,
    (1 <= k <= 10)%nat /\
    ((exists N,
        py_int (answer l k) = Some N /\
        read_data_buffer (SRS830.Str name) l =
          (Ok (fromstring (strip isspace (dev (l ++ polls k ++ [trca c N])%list))),
           (l ++ polls k ++ [trca c N])%list))
     \/ (exists e,
          (e = IOError \/ e = ValueError) /\
          read_data_buffer (SRS830.Str name) l = (Err e, (l ++ polls k)%list))).
Proof.
  intros Hc.
  destruct (num_data_points_run l) as (k & Hk & Hlog & _ & Hnone & Hsome).
  exists k. split; [exact Hk|].
  assert (Hrun : read_data_buffer (SRS830.Str name) l =
    match num_data_points l with
    | (Ok N, l') =>
        (Ok (fromstring (strip isspace (dev (l' ++ [trca c N])%list))),
         (l' ++ [trca c N])%list)
    | (Err e, l') => (Err e, l')
    end).
  { destruct Hc as [Hc|Hc]; injection Hc as -> ->; reflexivity. }
  rewrite Hrun. destruct (num_data_points l) as [res l'].
  simpl in Hlog, Hnone, Hsome. subst l'.
  destruct (falsy (answer l k)) eqn:E.
  - destruct (Hnone eq_refl) as [_ ->].
    right. exists IOError. split; [now left | reflexivity].
  - rewrite (Hsome eq_refl). unfold SRS830.int.
    destruct (py_int (answer l k)) as [N|].
    + left. exists N. split; [reflexivity|]. now rewrite <- !app_assoc.
    + right. exists ValueError. split; [now right | reflexivity].
Qed.

(** A poll stops as [stops_at] says and yields the [point_count] of the
    reply it stopped at. *)
Lemma num_data_points_stops (l : log) :
  exists k : nat,
    stops_at dev isspace l k /\
    num_data_points l = (point_count py_int (answer l k), (l ++ polls k)%list).
Proof.
  destruct (num_data_points_run l) as (k & Hk & Hlog & Hempty & Hnone & Hsome).
  exists k. split.
  - split; [exact Hk|]. split; [exact Hempty|].
    intros E. apply Hnone. now rewrite E.
  - rewrite (surjective_pairing (num_data_points l)), Hlog. f_equal.
    unfold point_count.
    destruct (answer l k) eqn:E.
    + now destruct (Hnone eq_refl) as [_ ->].
    + rewrite (Hsome eq_refl). reflexivity.
Qed.

(** A buffer read of ch1 or ch2 is a poll followed, when the poll gave a
    count, by the [TRCA?] query with that count. *)
Lemma read_data_buffer_eq (name : string) (c : Z) (l : log) :
  (name, c) = ("ch1", 1) \/ (name, c) = ("ch2", 2) ->
  read_data_buffer (SRS830.Str name) l =
    match num_data_points l with
    | (Ok N, l') =>
        (Ok (fromstring (strip isspace (dev (l' ++ [trca c N])%list))),
         (l' ++ [trca c N])%list)
    | (Err e, l') => (Err e, l')
    end.
Proof.
  intros [Hc|Hc]; injection Hc as -> ->; reflexivity.
Qed.

(** C1, as amended.  Whatever the device replies,
    [take_measurement(1, 10)] sends [REST], [SRAT 4], [SEND 0], [FAST 2]
    and [STRD], waits, sends [PAUS], and polls the point count ([SPTS?],
    up to the first non-empty reply, ten times at most); whatever that
    poll made of its replies, a failure included, has no part in what
    follows.  Then the buffer read of channel 1 polls again: if that poll
    fails ([IOError] after ten empty replies, [ValueError] for a reply
    that is no integer) the error is raised there; otherwise [TRCA?1,0,N1]
    is queried and the buffer read of channel 2 polls in its turn, raising
    in the same way or querying [TRCA?2,0,N2].  When both reads obtained
    their count the result is [np.array] of the samples read from the two
    [TRCA?] replies, channel 1 first. *)
Theorem take_measurement_sequence (l : log) :
  exists k0 : nat,
    stops_at dev isspace (l ++ acquisition)%list k0 /\
    let flushed := (l ++ acquisition ++ polls k0)%list in
    exists k1 : nat,
      stops_at dev isspace flushed k1 /\
      match point_count py_int (answer flushed k1) with
      | Err e =>
          take_measurement (PyInt 1) 10 l = (Err e, (flushed ++ polls k1)%list)
      | Ok N1 =>
          let read1 := (flushed ++ polls k1 ++ [trca 1 N1])%list in
          exists k2 : nat,
            stops_at dev isspace read1 k2 /\
            match point_count py_int (answer read1 k2) with
            | Err e =>
                take_measurement (PyInt 1) 10 l
                  = (Err e, (read1 ++ polls k2)%list)
            | Ok N2 =>
                let read2 := (read1 ++ polls k2 ++ [trca 2 N2])%list in
                take_measurement (PyInt 1) 10 l
                  = (np_array (fromstring (strip isspace (dev read1)))
                              (fromstring (strip isspace (dev read2))),
                     read2)
            end
      end.
Proof.
  assert (Hrun : take_measurement (PyInt 1) 10 l =
    match read_data_buffer (SRS830.Str "ch1")
            (snd (num_data_points (l ++ acquisition)%list)) with
    | (Ok ch1, l') =>
        match read_data_buffer (SRS830.Str "ch2") l' with
        | (Ok ch2, l'') => (np_array ch1 ch2, l'')
        | (Err e, l'') => (Err e, l'')
        end
    | (Err e, l') => (Err e, l')
    end).
  { unfold SRS830.take_measurement.
    cbv -[app snd SRS830.num_data_points SRS830.read_data_buffer].
    rewrite <- !app_assoc. reflexivity. }
  destruct (num_data_points_stops (l ++ acquisition)%list) as (k0 & Hk0 & H0).
  rewrite H0 in Hrun. cbn [snd] in Hrun. rewrite <- app_assoc in Hrun.
  exists k0. split; [exact Hk0|]. cbv zeta.
  destruct (num_data_points_stops (l ++ acquisition ++ polls k0)%list)
    as (k1 & Hk1 & H1).
  exists k1. split; [exact Hk1|].
  rewrite (read_data_buffer_eq "ch1" 1) in Hrun by now left.
  rewrite H1 in Hrun.
  destruct (point_count py_int
              (answer (l ++ acquisition ++ polls k0)%list k1)) as [N1|e];
    [|exact Hrun].
  rewrite <- !app_assoc in Hrun.
  destruct (num_data_points_stops
              (l ++ acquisition ++ polls k0 ++ polls k1 ++ [trca 1 N1])%list)
    as (k2 & Hk2 & H2).
  rewrite <- !app_assoc. exists k2. split; [exact Hk2|].
  rewrite (read_data_buffer_eq "ch2" 2) in Hrun by now right.
  rewrite H2 in Hrun.
  destruct (point_count py_int
              (answer (l ++ acquisition ++ polls k0 ++ polls k1
                         ++ [trca 1 N1])%list k2)) as [N2|e];
    [|exact Hrun].
  rewrite <- !app_assoc in Hrun. rewrite <- !app_assoc. exact Hrun.
Qed.

(** C2, as amended.  Whatever the sample rate, a sample count above 16383
    makes [take_measurement] raise with the channel log exactly as it
    found it: nothing sent, nothing queried, nothing read.  The exception
    is [ValueError] while [float] can convert the count, that is below
    2^1024 - 2^970, and the [OverflowError] of [float] from there on. *)
Theorem take_measurement_rejects_large_count
    (sample_rate : pyval) (num_samples : Z) (l : log) :
  16383 < num_samples ->
  take_measurement sample_rate num_samples l =
    (Err (if num_samples <? 2 ^ 1024 - 2 ^ 970
          then ValueError else OverflowError), l).
Proof.
  intros H. unfold SRS830.take_measurement, Chan.bind at 1, lift at 1.
  assert (H53 : 2 ^ 53 < 2 ^ 1024 - 2 ^ 970) by (vm_compute; reflexivity).
  assert (Hpos : 16383 < 2 ^ 53) by (vm_compute; reflexivity).
  destruct (Z.lt_ge_cases num_samples (2 ^ 53)) as [Hs|Hb].
  - rewrite PyFacts.float_of_int_small by lia.
    rewrite PyFacts.float_gt_of_int.
    replace (16383 <? num_samples) with true by (symmetry; apply Z.ltb_lt; lia).
    now replace (num_samples <? 2 ^ 1024 - 2 ^ 970) with true
      by (symmetry; apply Z.ltb_lt; lia).
  - destruct (PyFacts.float_of_int_large num_samples Hb) as [Hge ->].
    destruct (num_samples <? 2 ^ 1024 - 2 ^ 970); [|reflexivity].
    rewrite PyFacts.float_gt_of_int.
    now replace (16383 <? round_to_double num_samples) with true
      by (symmetry; apply Z.ltb_lt; lia).
Qed.

(** C4.  The phase setter accepts the half-open interval from -360 to
    730: a value with [-360 <= v < 730] is sent in one [PHAS] command and
    nothing is raised; a value with [v < -360] or [v >= 730] raises
    [ValueError] and leaves the channel untouched. *)
Theorem phase_setter_half_open (v : pyfloat) (l : log) :
  (float_le (of_int (-360)) v = true -> float_lt v (of_int 730) = true ->
   SRS830.phase_setter repr_float v l
     = (Ok tt, (l ++ [Send ("PHAS " ++ repr_float v)])%list))
  /\
  (float_lt v (of_int (-360)) = true \/ float_ge v (of_int 730) = true ->
   SRS830.phase_setter repr_float v l = (Err ValueError, l)).
Proof.
  unfold SRS830.phase_setter. split.
  - intros Hlo Hhi.
    apply PyFacts.float_le_not_lt in Hlo.
    apply PyFacts.float_lt_not_le in Hhi.
    unfold float_ge. now rewrite Hlo, Hhi.
  - intros [H|H]; rewrite H; [|reflexivity].
    now rewrite orb_true_r.
Qed.

(** The guard of [set_offset_expand] holds of every value. *)
Lemma not_int_or_not_float (v : pyval) :
  negb (is_int v) || negb (is_float v) = true.
Proof. now destruct v. Qed.

(** C9.  With a mode naming x, y or r, [set_offset_expand] raises
    [TypeError] whatever the offset and the expansion are, and the channel
    log is as it was: no [OEXP] is written. *)
Theorem set_offset_expand_type_error
    (mode : SRS830.arg) (m : SRS830.Mode.t) (offset expand : pyval) (l : log) :
  SRS830.normalize mode l = (Ok m, l) ->
  m = SRS830.Mode.x \/ m = SRS830.Mode.y \/ m = SRS830.Mode.r ->
  SRS830.set_offset_expand repr_float mode offset expand l
    = (Err TypeError, l).
Proof.
  intros Hmode Hm. unfold SRS830.set_offset_expand, Chan.bind at 1.
  rewrite Hmode.
  destruct Hm as [-> | [-> | ->]]; cbn -[is_int is_float negb orb];
    now rewrite not_int_or_not_float.
Qed.

(** Normalising a mode argument succeeds or raises, and writes nothing. *)
Lemma normalize_cases (a : SRS830.arg) (l : log) :
  (exists m, SRS830.normalize a l = (Ok m, l))
  \/ (exists e, SRS830.normalize a l = (Err e, l)).
Proof.
  destruct a as [s|m]; [|left; now exists m].
  unfold SRS830.normalize, Chan.bind, lift; simpl.
  destruct (SRS830.Mode.of_name (lower s)) as [m|e];
    [left; now exists m | right; now exists e].
Qed.

(** Whatever its arguments, [set_offset_expand] raises and writes
    nothing. *)
Lemma set_offset_expand_never_sends
    (mode : SRS830.arg) (offset expand : pyval) (l : log) :
  exists e, SRS830.set_offset_expand repr_float mode offset expand l
            = (Err e, l).
Proof.
  unfold SRS830.set_offset_expand, Chan.bind at 1.
  destruct (normalize_cases mode l) as [[m ->] | [e ->]]; [|now exists e].
  destruct (SRS830.has_key SRS830._XYR_MODE_MAP (SRS830.OfMode m)) eqn:E;
    [|now exists ValueError].
  exists TypeError.
  destruct m; try discriminate E; cbn -[is_int is_float negb orb];
    now rewrite not_int_or_not_float.
Qed.

(** C3, the code at the calls of the claim.  Given two names,
    [data_snap] raises [AttributeError] where it lower-cases [mode1], by
    then a [Mode] member, in place of [mode2]; no [SNAP?] is issued. *)
Theorem data_snap_names_raise (l : log) :
  SRS830.data_snap dev py_float (SRS830.Str "x") (SRS830.Str "y") l
    = (Err AttributeError, l) /\
  SRS830.data_snap dev py_float (SRS830.Str "y") (SRS830.Str "x") l
    = (Err AttributeError, l) /\
  SRS830.data_snap dev py_float (SRS830.Str "x") (SRS830.Str "x") l
    = (Err AttributeError, l).
Proof. repeat split. Qed.

(** A second mode given by name never gets as far as the query. *)
Lemma data_snap_second_name_raises
    (mode1 : SRS830.arg) (name2 : string) (l : log) :
  exists e, (e = AttributeError \/ e = KeyError) /\
    SRS830.data_snap dev py_float mode1 (SRS830.Str name2) l = (Err e, l).
Proof.
  unfold SRS830.data_snap, Chan.bind at 1.
  destruct mode1 as [s|m]; simpl.
  - unfold Chan.bind, lift; simpl. unfold SRS830.Mode.of_name.
    destruct (List.find _ SRS830.Mode.names).
    + exists AttributeError. split; [now left | reflexivity].
    + exists KeyError. split; [now right | reflexivity].
  - exists AttributeError. split; [now left | reflexivity].
Qed.

(** With both modes given as members the query goes out, the sibling
    path the names miss. *)
Lemma data_snap_members_query (l : log) :
  snd (SRS830.data_snap dev py_float
         (SRS830.Member SRS830.Mode.x) (SRS830.Member SRS830.Mode.y) l)
    = (l ++ [Query "SNAP? 1,2"])%list.
Proof.
  unfold SRS830.data_snap. cbv -[app SRS830.map_float split].
  reflexivity.
Qed.

(** C6, the code at ["trigger"].  The setter sends [SRAT 14] and then
    goes on to the membership test against the numeric rates, which a
    string fails: [ValueError] is raised after the write. *)
Theorem sample_rate_setter_trigger (l : log) :
  SRS830.sample_rate_setter (PyStr "trigger") l
    = (Err ValueError, (l ++ [Send "SRAT 14"])%list).
Proof. reflexivity. Qed.

(** No string is accepted by the setter. *)
Lemma sample_rate_setter_str (s : string) (l : log) :
  fst (SRS830.sample_rate_setter (PyStr s) l) = Err ValueError.
Proof.
  unfold SRS830.sample_rate_setter, Chan.bind, ret.
  now destruct (String.eqb (lower s) "trigger").
Qed.

(** A number among the rates is sent by its index, in one write; a
    number outside them is refused with nothing written. *)
Lemma sample_rate_setter_number (v : pyval) (l : log) :
  is_str v = false ->
  if contains SRS830.VALID_SAMPLE_RATES v
  then exists i, index SRS830.VALID_SAMPLE_RATES v = Ok i /\
         SRS830.sample_rate_setter v l
           = (Ok tt, (l ++ [Send ("SRAT " ++ str_of_int i)])%list)
  else SRS830.sample_rate_setter v l = (Err ValueError, l).
Proof.
  intros Hv.
  assert (Hrun : SRS830.sample_rate_setter v l =
    if contains SRS830.VALID_SAMPLE_RATES v
    then match index SRS830.VALID_SAMPLE_RATES v with
         | Ok i => (Ok tt, (l ++ [Send ("SRAT " ++ str_of_int i)])%list)
         | Err e => (Err e, l)
         end
    else (Err ValueError, l)).
  { destruct v; try discriminate Hv; unfold SRS830.sample_rate_setter,
      Chan.bind, ret, lift, raise, sendcmd;
    destruct (contains _ _); try reflexivity;
    now destruct (index _ _). }
  rewrite Hrun. clear Hrun.
  destruct (contains SRS830.VALID_SAMPLE_RATES v) eqn:E; [|reflexivity].
  destruct (PyFacts.index_of_member _ _ 0 E) as [i Hi].
  exists i. unfold index. now rewrite Hi.
Qed.

(** An integer key is in no table keyed by modes. *)
Lemma getitem_of_int (table : list (SRS830.Mode.t * Z)) (z : Z) :
  SRS830.getitem (SRS830.of_modes table) (SRS830.OfInt z) = Err KeyError.
Proof.
  unfold SRS830.getitem.
  induction table as [|[m c] table IH]; simpl; [reflexivity | exact IH].
Qed.

(** C7, the code at a valid triple.  For channel 1 showing x with no
    ratio, [set_channel_display] raises [KeyError] where it indexes the
    ratio table with the display code, and no [DDEF] is sent. *)
Theorem set_channel_display_key_error (l : log) :
  SRS830.set_channel_display
    (SRS830.Str "ch1") (SRS830.Str "x") (SRS830.Str "none") l
    = (Err KeyError, l).
Proof. reflexivity. Qed.

(** Whatever its arguments, [set_channel_display] raises and writes
    nothing: past the three membership tests the ratio table is asked for
    an integer. *)
Lemma set_channel_display_never_sends
    (channel display ratio : SRS830.arg) (l : log) :
  exists e, SRS830.set_channel_display channel display ratio l = (Err e, l).
Proof.
  unfold SRS830.set_channel_display.
  unfold Chan.bind at 1.
  destruct (normalize_cases channel l) as [[c ->] | [e ->]]; [|now exists e].
  unfold Chan.bind at 1.
  destruct (normalize_cases display l) as [[d ->] | [e ->]]; [|now exists e].
  unfold Chan.bind at 1.
  destruct (normalize_cases ratio l) as [[r ->] | [e ->]]; [|now exists e].
  destruct c; try (now exists ValueError);
    destruct d; try (now exists ValueError);
    destruct r; try (now exists ValueError);
    now exists KeyError.
Qed.

(** Given three members, the call raises [ValueError] unless the channel
    is ch1 or ch2 and the display and the ratio are in that channel's
    tables, and [KeyError] when they are. *)
Lemma set_channel_display_members
    (channel display ratio : SRS830.Mode.t) (l : log) :
  SRS830.set_channel_display (SRS830.Member channel) (SRS830.Member display)
    (SRS830.Member ratio) l =
  match SRS830.getitem SRS830._valid_channel (SRS830.OfMode channel) with
  | Ok c =>
      if SRS830.has_key (SRS830.table_at SRS830._valid_channel_display (c - 1))
           (SRS830.OfMode display)
         && SRS830.has_key (SRS830.table_at SRS830._valid_channel_ratio (c - 1))
              (SRS830.OfMode ratio)
      then (Err KeyError, l)
      else (Err ValueError, l)
  | Err _ => (Err ValueError, l)
  end.
Proof. destruct channel, display, ratio; reflexivity. Qed.

End SRS830_Facts.

(** ** The temperature controller *)

Section TC200_Facts.
Import Py Chan Trace.
Variable dev : device.
Variable py_int : string -> option Z.

(** C5.  [check_command] puts the command on the channel, reads the
    reply, and classifies it before anything is parsed: a reply in which
    [CMD_NOT_DEFINED] occurs gives the undefined-command sentinel, never a
    payload; failing that, a reply in which [CMD_ARG_INVALID] occurs gives
    that sentinel; failing both, the payload is the reply with the
    command text replaced by nothing and then every carriage return and
    every [>] deleted. *)
Theorem check_command_classifies (command : string) (l : log) :
  let reply := dev (l ++ [Query command; Read])%list in
  let out := TC200.check_command dev command l in
  snd out = (l ++ [Query command; Read])%list /\
  (occurs "CMD_NOT_DEFINED" reply -> fst out = Ok TC200.CMD_NOT_DEFINED) /\
  (~ occurs "CMD_NOT_DEFINED" reply -> occurs "CMD_ARG_INVALID" reply ->
   fst out = Ok TC200.CMD_ARG_INVALID) /\
  (~ occurs "CMD_NOT_DEFINED" reply -> ~ occurs "CMD_ARG_INVALID" reply ->
   fst out = Ok (TC200.Payload
                   (remove_char ">"
                      (remove_char (ascii_of_nat 13)
                         (replace reply command ""))))).
Proof.
  cbv zeta. unfold TC200.check_command, Chan.bind, query, read, ret.
  rewrite <- !app_assoc. cbn [app].
  set (reply := dev (l ++ [Query command; Read])%list).
  pose proof (PyFacts.find_eqb reply "CMD_NOT_DEFINED") as Hnd.
  pose proof (PyFacts.find_eqb reply "CMD_ARG_INVALID") as Hai.
  destruct (find reply "CMD_NOT_DEFINED" =? -1) eqn:Und.
  - destruct (find reply "CMD_ARG_INVALID" =? -1) eqn:Eai.
    + split; [reflexivity|]. split; [|split].
      * intros H. now apply Hnd in H.
      * intros _ H. now apply Hai in H.
      * intros _ _. cbn [fst].
        unfold TC200.end_terminator, TC200.terminator.
        now rewrite !PyFacts.replace_char.
    + split; [reflexivity|]. split; [|split].
      * intros H. now apply Hnd in H.
      * reflexivity.
      * intros _ H. apply Hai in H. discriminate.
  - split; [reflexivity|]. split; [|split].
    + reflexivity.
    + intros H. apply Hnd in H. discriminate.
    + intros H. apply Hnd in H. discriminate.
Qed.

(** The response code computed by the getter is 0 for every status. *)
Lemma response_code_zero (n : Z) : (Z.shiftl n 1) mod 2 = 0.
Proof.
  rewrite Z.shiftl_mul_pow2 by lia. change (2 ^ 1) with 2.
  apply Z.mod_mul. lia.
Qed.

(** What the getter returns, by the outcome of [check_command]. *)
Lemma mode_run (l : log) :
  TC200.mode dev py_int l =
  match TC200.check_command dev "stat?" l with
  | (Ok TC200.CMD_NOT_DEFINED, l') => (Ok None, l')
  | (Ok resp, l') =>
      match py_int (TC200.text resp) with
      | Some _ => (Ok (Some TC200.Mode.normal), l')
      | None => (Err ValueError, l')
      end
  | (Err e, l') => (Err e, l')
  end.
Proof.
  unfold TC200.mode, Chan.bind at 1.
  destruct (TC200.check_command dev "stat?" l) as [[resp|e] l'];
    [|reflexivity].
  destruct resp; try reflexivity;
    unfold Chan.bind, lift, TC200.int;
    match goal with |- context [py_int ?s] => destruct (py_int s) as [n|] end;
    try reflexivity; now rewrite response_code_zero.
Qed.

(** C10.  When the status reply is not the undefined-command sentinel and
    parses as an integer, the [mode] getter returns [Mode.normal]; and
    whatever the reply, it never returns [Mode.cycle]. *)
Theorem mode_always_normal (l : log) (resp : TC200.response) (n : Z) :
  fst (TC200.check_command dev "stat?" l) = Ok resp ->
  resp <> TC200.CMD_NOT_DEFINED ->
  py_int (TC200.text resp) = Some n ->
  fst (TC200.mode dev py_int l) = Ok (Some TC200.Mode.normal) /\
  forall l', fst (TC200.mode dev py_int l') <> Ok (Some TC200.Mode.cycle).
Proof.
  intros Hresp Hdef Hint. split.
  - rewrite mode_run.
    destruct (TC200.check_command dev "stat?" l) as [res l'].
    simpl in Hresp. subst res.
    destruct resp; [congruence | |]; now rewrite Hint.
  - intros l'. rewrite mode_run.
    destruct (TC200.check_command dev "stat?" l') as [[r|e] l''];
      [|discriminate].
    destruct r; try discriminate;
      match goal with |- context [py_int ?s] => destruct (py_int s) end;
      discriminate.
Qed.

End TC200_Facts.

(** ** The theorems at concrete calls *)

Section Instances.
Import Py Chan Trace.

(** A device that is silent throughout: the flush poll fails and is
    ignored, the poll of the first buffer read fails too and its
    [IOError] comes out; no buffer is read and no pair is returned. *)
Lemma take_measurement_silent_device :
  SRS830.take_measurement Demo.silent Demo.isspace Demo.py_int
    Demo.fromstring Demo.np_array (PyInt 1) 10 []
  = (Err IOError, (acquisition ++ polls 20)%list).
Proof. vm_compute. reflexivity. Qed.

(** A count no double holds: [float] raises before the guard is
    reached, and it is not [ValueError] that comes out. *)
Lemma take_measurement_count_overflow :
  SRS830.take_measurement Demo.silent Demo.isspace Demo.py_int
    Demo.fromstring Demo.np_array (PyInt 1) (2 ^ 1024) []
  = (Err OverflowError, []).
Proof. vm_compute. reflexivity. Qed.

Lemma take_measurement_rejects_large_count_witness :
  16383 < 16384 /\
  SRS830.take_measurement Demo.silent Demo.isspace Demo.py_int
    Demo.fromstring Demo.np_array (PyInt 1) 16384 []
  = (Err ValueError, []).
Proof.
  split; [lia|].
  exact (take_measurement_rejects_large_count Demo.silent Demo.isspace
           Demo.py_int Demo.fromstring Demo.np_array (PyInt 1) 16384 []
           ltac:(lia)).
Defined.

(** -360 is accepted and 730 is refused. *)
Lemma phase_setter_half_open_witness :
  SRS830.phase_setter Demo.repr_float (of_int (-360)) []
    = (Ok tt, [Send "PHAS -360.0"]) /\
  SRS830.phase_setter Demo.repr_float (of_int 730) [] = (Err ValueError, []).
Proof.
  split.
  - apply (proj1 (phase_setter_half_open Demo.repr_float (of_int (-360)) []));
      reflexivity.
  - apply (proj2 (phase_setter_half_open Demo.repr_float (of_int 730) [])).
    right. reflexivity.
Defined.

Lemma set_offset_expand_type_error_witness :
  SRS830.normalize (SRS830.Str "X") [] = (Ok SRS830.Mode.x, []) /\
  SRS830.set_offset_expand Demo.repr_float (SRS830.Str "X")
    (PyFloat (of_int 50)) (PyInt 10) []
  = (Err TypeError, []).
Proof.
  split; [reflexivity|].
  apply (set_offset_expand_type_error Demo.repr_float (SRS830.Str "X")
           SRS830.Mode.x (PyFloat (of_int 50)) (PyInt 10) []).
  - reflexivity.
  - left. reflexivity.
Defined.

(** A rejected command, and a status reply echoing the command. *)
Lemma check_command_classifies_witness :
  fst (TC200.check_command
         (Demo.scripted [""; "Command error CMD_NOT_DEFINED"]) "stat?" [])
    = Ok TC200.CMD_NOT_DEFINED /\
  fst (TC200.check_command
         (Demo.scripted [""; "stat?" ++ TC200.terminator ++ "3 >"]) "stat?" [])
    = Ok (TC200.Payload "3 ").
Proof.
  split.
  - apply (check_command_classifies
             (Demo.scripted [""; "Command error CMD_NOT_DEFINED"]) "stat?" []).
    exists "Command error ", "". reflexivity.
  - apply (check_command_classifies
             (Demo.scripted [""; "stat?" ++ TC200.terminator ++ "3 >"])
             "stat?" []);
      apply PyFacts.find_spec; reflexivity.
Defined.

(** Status 3 has the mode bit set, and the getter still answers
    [normal]. *)
Lemma mode_always_normal_witness :
  fst (TC200.mode
         (Demo.scripted [""; "stat?" ++ TC200.terminator ++ "3>"])
         Demo.py_int [])
    = Ok (Some TC200.Mode.normal).
Proof.
  apply (mode_always_normal
           (Demo.scripted [""; "stat?" ++ TC200.terminator ++ "3>"])
           Demo.py_int [] (TC200.Payload "3") 3).
  - reflexivity.
  - discriminate.
  - reflexivity.
Defined.

End Instances.

(** ** More of the lock-in amplifier: construction and properties *)

Section SRS830_Properties.
Import Py Chan Trace.
Variable dev : device.
Variable isspace : ascii -> bool.
Variable py_int : string -> option Z.
Variable py_float : string -> option pyfloat.
Variable repr_float : pyfloat -> string.
Variable fromstring : string -> list pyfloat.
Variable np_array :
  list pyfloat -> list pyfloat -> result (list pyfloat * list pyfloat).

(** X1.  The constructor sends exactly one command, [OUTX 1] or [OUTX 2],
    or raises [IOError] with nothing sent; it raises only when [outx_mode]
    is neither 1 nor 2 and the communicator is neither GPIB nor serial,
    and an [outx_mode] of 1 or 2 decides the command whatever the
    communicator is. *)
Theorem init_sends_one_outx
    (filelike : SRS830.communicator) (outx_mode : pyval) (l : log) :
  (exists c, (c = 1 \/ c = 2) /\
     SRS830.__init__ filelike outx_mode l
       = (Ok tt, (l ++ [Send ("OUTX " ++ str_of_int c)])%list) /\
     (is_literal outx_mode 1 = true -> c = 1) /\
     (is_literal outx_mode 2 = true -> c = 2))
  \/ (SRS830.__init__ filelike outx_mode l = (Err IOError, l) /\
      filelike = SRS830.OtherCommunicator /\
      is_literal outx_mode 1 = false /\ is_literal outx_mode 2 = false).
Proof.
  unfold SRS830.__init__.
  destruct (is_literal outx_mode 1) eqn:E1.
  - left. exists 1. repeat split; auto.
    intros E2. destruct outx_mode; try discriminate.
    simpl in E1, E2. apply Z.eqb_eq in E1, E2. congruence.
  - destruct (is_literal outx_mode 2) eqn:E2.
    + left. exists 2. repeat split; auto. discriminate.
    + destruct filelike.
      * left. exists 1. repeat split; auto; discriminate.
      * left. exists 2. repeat split; auto; discriminate.
      * right. repeat split.
Qed.

(** X2.  The [frequency_source] getter never returns a member: after its
    one [FMOD?] query it raises [KeyError] when the reply is an integer,
    the class being subscripted with a number, and [ValueError] when it
    is not. *)
Theorem frequency_source_never_returns (l : log) :
  let l' := (l ++ [Query "FMOD?"])%list in
  SRS830.frequency_source dev py_int l =
    (Err (match py_int (dev l') with Some _ => KeyError | None => ValueError end),
     l').
Proof.
  cbv zeta. unfold SRS830.frequency_source, Chan.bind, query, lift, SRS830.int.
  now destruct (py_int (dev (l ++ [Query "FMOD?"])%list)).
Qed.

(** X3.  Assigning a [Coupling] member and reading the property back
    returns that member, when the device answers [ICPL?] with the code it
    was sent. *)
Theorem coupling_round_trip (c : SRS830.Coupling.t) (l : log) :
  let l' := (l ++ [Send ("ICPL " ++ str_of_int (SRS830.Coupling.value c));
                   Query "ICPL?"])%list in
  py_int (dev l') = Some (SRS830.Coupling.value c) ->
  Chan.bind (SRS830.coupling_setter (SRS830.ACoupling c))
    (fun _ => SRS830.coupling dev py_int) l
  = (Ok c, l').
Proof.
  cbv zeta. intros H.
  unfold Chan.bind, SRS830.coupling_setter, SRS830.coupling, sendcmd, query,
    lift, SRS830.int, Chan.bind.
  rewrite <- !app_assoc. cbn [app]. rewrite H.
  now destruct c.
Qed.

(** The [coupling] getter decodes 0 and 1 and refuses every other
    integer. *)
Lemma coupling_decodes (n : Z) (l : log) :
  py_int (dev (l ++ [Query "ICPL?"])%list) = Some n ->
  fst (SRS830.coupling dev py_int l) =
    if n =? 0 then Ok SRS830.Coupling.ac
    else if n =? 1 then Ok SRS830.Coupling.dc
    else Err ValueError.
Proof.
  intros H. unfold SRS830.coupling, Chan.bind, query, lift, SRS830.int.
  now rewrite H.
Qed.

(** X4.  Assigning any value to [input_shield_ground] and reading it back
    returns the truth value of what was assigned, when the device answers
    [IGND?] with the code it was sent. *)
Theorem input_shield_ground_round_trip (v : pyval) (l : log) :
  let code := if truthy v then 1 else 0 in
  let l' := (l ++ [Send ("IGND " ++ str_of_int code); Query "IGND?"])%list in
  py_int (dev l') = Some code ->
  Chan.bind (SRS830.input_shield_ground_setter v)
    (fun _ => SRS830.input_shield_ground dev py_int) l
  = (Ok (truthy v), l').
Proof.
  cbv zeta. intros H.
  unfold Chan.bind, SRS830.input_shield_ground_setter,
    SRS830.input_shield_ground, sendcmd, query, lift, SRS830.int, Chan.bind,
    ret.
  rewrite <- !app_assoc. cbn [app]. rewrite H.
  now destruct (truthy v).
Qed.

(** X5.  The amplitude setter accepts the closed interval from the double
    0.004 to 5: a value in it is sent in one [SLVL] command, a value below
    0.004 or above 5 raises [ValueError] and leaves the channel
    untouched. *)
Theorem amplitude_setter_closed (v : pyfloat) (l : log) :
  (float_le SRS830.lit_0_004 v = true -> float_le v (of_int 5) = true ->
   SRS830.amplitude_setter repr_float v l
     = (Ok tt, (l ++ [Send ("SLVL " ++ repr_float v)])%list))
  /\
  (float_lt v SRS830.lit_0_004 = true \/ float_gt v (of_int 5) = true ->
   SRS830.amplitude_setter repr_float v l = (Err ValueError, l)).
Proof.
  unfold SRS830.amplitude_setter. split.
  - intros Hlo Hhi.
    apply PyFacts.float_le_not_lt in Hlo.
    apply PyFacts.float_le_not_lt in Hhi.
    unfold float_gt. now rewrite Hlo, Hhi.
  - intros [H|H]; rewrite H; [|reflexivity].
    now rewrite orb_true_r.
Qed.

Lemma valid_rates_item (n : Z) :
  (0 <= n <= 13 ->
   item SRS830.VALID_SAMPLE_RATES n = Some (Finite (2 ^ (n - 4))%Q)) /\
  (-14 <= n < 0 ->
   item SRS830.VALID_SAMPLE_RATES n = Some (Finite (2 ^ (n + 10))%Q)) /\
  (n < -14 \/ 13 < n -> item SRS830.VALID_SAMPLE_RATES n = None).
Proof.
  split; [|split].
  - intros H.
    assert (E : n = Z.of_nat (Z.to_nat n)) by lia. rewrite E.
    destruct (Z.to_nat n) as [|k] eqn:Ek; [reflexivity|].
    do 13 (destruct k as [|k]; [reflexivity|]). lia.
  - intros H.
    assert (E : n = - Z.of_nat (Z.to_nat (- n))) by lia. rewrite E.
    destruct (Z.to_nat (- n)) as [|k] eqn:Ek; [lia|].
    do 14 (destruct k as [|k]; [reflexivity|]). lia.
  - intros H. unfold item.
    change (Z.of_nat (List.length SRS830.VALID_SAMPLE_RATES)) with 14.
    repeat match goal with
           | |- context [?a <=? ?b] => destruct (Z.leb_spec a b)
           | |- context [?a <? ?b] => destruct (Z.ltb_spec a b)
           end; simpl; try reflexivity; lia.
Qed.

(** X6.  The [sample_rate] getter subscripts the table of rates with the
    integer the device replies: 0 to 13 give 2^(n-4) hertz, -14 to -1
    count from the end of the table, and anything else, the code 14 the
    setter sends for "trigger" included, is an [IndexError]. *)
Theorem sample_rate_decodes (n : Z) (l : log) :
  let l' := (l ++ [Query "SRAT?"])%list in
  py_int (dev l') = Some n ->
  snd (SRS830.sample_rate dev py_int l) = l' /\
  (0 <= n <= 13 ->
   fst (SRS830.sample_rate dev py_int l) = Ok (Some (Finite (2 ^ (n - 4))%Q))) /\
  (-14 <= n < 0 ->
   fst (SRS830.sample_rate dev py_int l) = Ok (Some (Finite (2 ^ (n + 10))%Q))) /\
  (n < -14 \/ 13 < n -> fst (SRS830.sample_rate dev py_int l) = Ok None).
Proof.
  cbv zeta. intros H.
  unfold SRS830.sample_rate, Chan.bind, query, lift, SRS830.int, ret.
  rewrite H. cbn [fst snd].
  destruct (valid_rates_item n) as (H1 & H2 & H3).
  split; [reflexivity|]. split; [|split]; intros Hn.
  - now rewrite H1.
  - now rewrite H2.
  - now rewrite H3.
Qed.

(** X22.  Given anything but a string, the [sample_rate] setter does one
    of two things: a value equal to a legal rate is sent in one [SRAT]
    command carrying its index in the table, and any other value raises
    [ValueError] with nothing written. *)
Theorem sample_rate_setter_on_numbers (v : pyval) (l : log) :
  is_str v = false ->
  if contains SRS830.VALID_SAMPLE_RATES v
  then exists i, index SRS830.VALID_SAMPLE_RATES v = Ok i /\
         SRS830.sample_rate_setter v l
           = (Ok tt, (l ++ [Send ("SRAT " ++ str_of_int i)])%list)
  else SRS830.sample_rate_setter v l = (Err ValueError, l).
Proof. exact (sample_rate_setter_number v l). Qed.

(** Where [index] finds a value, the list holds an equal number. *)
Lemma index_from_item (l : list pyfloat) (v : pyval) : forall z i,
  index_from z l v = Ok i ->
  z <= i < z + Z.of_nat (List.length l) /\
  exists f, nth_error l (Z.to_nat (i - z)) = Some f /\ eq_float v f = true.
Proof.
  induction l as [|f l IH]; intros z i H; simpl in H; [discriminate|].
  destruct (eq_float v f) eqn:E.
  - injection H as <-. split; [simpl List.length; lia|].
    exists f. now rewrite Z.sub_diag.
  - apply IH in H as (Hb & g & Hg & Hv).
    split; [simpl List.length; lia|].
    exists g. split; [|exact Hv].
    replace (Z.to_nat (i - z)) with (S (Z.to_nat (i - (z + 1)))) by lia.
    exact Hg.
Qed.

(** X7.  Assigning a number among the legal rates and reading the property
    back returns a rate equal to it, when the device answers [SRAT?] with
    the index it was sent; that index is between 0 and 13. *)
Theorem sample_rate_round_trip (v : pyval) (l : log) :
  is_str v = false ->
  contains SRS830.VALID_SAMPLE_RATES v = true ->
  exists (i : Z) (f : pyfloat),
    0 <= i <= 13 /\ eq_float v f = true /\
    let l' := (l ++ [Send ("SRAT " ++ str_of_int i); Query "SRAT?"])%list in
    (py_int (dev l') = Some i ->
     Chan.bind (SRS830.sample_rate_setter v)
       (fun _ => SRS830.sample_rate dev py_int) l
     = (Ok (Some f), l')).
Proof.
  intros Hv Hin.
  pose proof (sample_rate_setter_number v l Hv) as Hset.
  rewrite Hin in Hset. destruct Hset as (i & Hi & Hset).
  destruct (index_from_item _ _ _ _ Hi) as (Hb & f & Hf & Hvf).
  change (Z.of_nat (List.length SRS830.VALID_SAMPLE_RATES)) with 14 in Hb.
  rewrite Z.sub_0_r in Hf.
  exists i, f. split; [lia|]. split; [exact Hvf|]. cbv zeta. intros Hecho.
  unfold Chan.bind at 1. rewrite Hset.
  unfold SRS830.sample_rate, Chan.bind, query, lift, SRS830.int, ret.
  rewrite <- !app_assoc. cbn [app]. rewrite Hecho.
  unfold item.
  change (Z.of_nat (List.length SRS830.VALID_SAMPLE_RATES)) with 14.
  replace (0 <=? i) with true by (symmetry; apply Z.leb_le; lia).
  replace (i <? 14) with true by (symmetry; apply Z.ltb_lt; lia).
  cbn [andb]. now rewrite Hf.
Qed.

Lemma lower_char_idempotent (c : ascii) :
  lower_char (lower_char c) = lower_char c.
Proof. destruct c as [[] [] [] [] [] [] [] []]; reflexivity. Qed.

Lemma lower_idempotent (s : string) : lower (lower s) = lower s.
Proof.
  induction s as [|c s IH]; simpl; [reflexivity|].
  now rewrite lower_char_idempotent, IH.
Qed.

(** X8.  A mode given by name is looked up without regard to case: the
    name and its lower-case form are normalised alike, to the same member
    or to the same [KeyError]. *)
Theorem normalize_ignores_case (name : string) (l : log) :
  SRS830.normalize (SRS830.Str name) l
  = SRS830.normalize (SRS830.Str (lower name)) l.
Proof.
  unfold SRS830.normalize, SRS830.lower_of, Chan.bind, lift.
  now rewrite lower_idempotent.
Qed.

(** X9.  [auto_offset] sends one [AOFF] command, with code 1, 2 or 3, when
    its mode resolves to x, y or r; for any other member it raises
    [ValueError] and for an unknown name [KeyError], with nothing sent. *)
Theorem auto_offset_outcomes (mode : SRS830.arg) (l : log) :
  (exists m c,
     SRS830.normalize mode l = (Ok m, l) /\
     SRS830.getitem SRS830._XYR_MODE_MAP (SRS830.OfMode m) = Ok c /\
     1 <= c <= 3 /\
     SRS830.auto_offset mode l
       = (Ok tt, (l ++ [Send ("AOFF " ++ str_of_int c)])%list))
  \/ (exists m,
       SRS830.normalize mode l = (Ok m, l) /\
       SRS830.has_key SRS830._XYR_MODE_MAP (SRS830.OfMode m) = false /\
       SRS830.auto_offset mode l = (Err ValueError, l))
  \/ (SRS830.normalize mode l = (Err KeyError, l) /\
      SRS830.auto_offset mode l = (Err KeyError, l)).
Proof.
  unfold SRS830.auto_offset, Chan.bind at 1.
  destruct mode as [s|m].
  - unfold SRS830.normalize, SRS830.lower_of, Chan.bind, lift.
    unfold SRS830.Mode.of_name.
    destruct (List.find _ SRS830.Mode.names) as [[nm m]|]; [|now right; right].
    cbn [snd].
    destruct m;
      first [ solve [ left; eexists _, _; split; [reflexivity|];
                      split; [reflexivity|];
                      split; [cbv; split; intro; discriminate | reflexivity] ]
            | solve [ right; left; eexists; repeat split ] ].
  - cbn [SRS830.normalize ret].
    destruct m;
      first [ solve [ left; eexists _, _; split; [reflexivity|];
                      split; [reflexivity|];
                      split; [cbv; split; intro; discriminate | reflexivity] ]
            | solve [ right; left; eexists; repeat split ] ].
Qed.

(** X10.  [read_data_buffer] touches the channel only for ch1 and ch2:
    any other member raises [ValueError] and an unknown name [KeyError]
    before the point count is asked for. *)
Theorem read_data_buffer_checks_channel (channel : SRS830.arg) (l : log) :
  (forall m, SRS830.normalize channel l = (Ok m, l) ->
             m <> SRS830.Mode.ch1 -> m <> SRS830.Mode.ch2 ->
   SRS830.read_data_buffer dev isspace py_int fromstring channel l
     = (Err ValueError, l)) /\
  (forall e, SRS830.normalize channel l = (Err e, l) ->
   e = KeyError /\
   SRS830.read_data_buffer dev isspace py_int fromstring channel l
     = (Err KeyError, l)).
Proof.
  split.
  - intros m Hm H1 H2.
    unfold SRS830.read_data_buffer, Chan.bind at 1. rewrite Hm.
    destruct m; try reflexivity; congruence.
  - intros e He.
    unfold SRS830.read_data_buffer, Chan.bind at 1. rewrite He.
    destruct channel as [s|m]; [|discriminate He].
    unfold SRS830.normalize, SRS830.lower_of, Chan.bind, lift in He.
    unfold SRS830.Mode.of_name in He.
    destruct (List.find _ SRS830.Mode.names); [discriminate He|].
    injection He as <-. split; reflexivity.
Qed.

(** X11.  Given two members that [_data_snap_modes] lists, [data_snap]
    raises [KeyError] without querying as soon as one of them is not x, y
    or r: the codes are taken from [_XYR_MODE_MAP]. *)
Theorem data_snap_listed_modes_key_error (mode1 mode2 : SRS830.Mode.t) (l : log) :
  SRS830.has_key SRS830._data_snap_modes (SRS830.OfMode mode1) = true ->
  SRS830.has_key SRS830._data_snap_modes (SRS830.OfMode mode2) = true ->
  SRS830.has_key SRS830._XYR_MODE_MAP (SRS830.OfMode mode1) = false
  \/ SRS830.has_key SRS830._XYR_MODE_MAP (SRS830.OfMode mode2) = false ->
  SRS830.data_snap dev py_float (SRS830.Member mode1) (SRS830.Member mode2) l
    = (Err KeyError, l).
Proof.
  intros H1 H2 H.
  destruct mode1; try discriminate H1;
    destruct mode2; try discriminate H2;
    destruct H as [H|H]; try discriminate H; reflexivity.
Qed.

(** X12.  Given two different members among x, y and r, [data_snap] issues
    the single query [SNAP? c1,c2] with their codes in the order of the
    arguments, and when every comma-separated field of the reply is a
    float the result is those floats, in order; given the same member
    twice it raises [ValueError] and queries nothing. *)
Theorem data_snap_members (mode1 mode2 : SRS830.Mode.t) (c1 c2 : Z) (l : log) :
  SRS830.getitem SRS830._XYR_MODE_MAP (SRS830.OfMode mode1) = Ok c1 ->
  SRS830.getitem SRS830._XYR_MODE_MAP (SRS830.OfMode mode2) = Ok c2 ->
  let l' := (l ++ [Query ("SNAP? " ++ str_of_int c1 ++ "," ++ str_of_int c2)])%list in
  let run := SRS830.data_snap dev py_float
               (SRS830.Member mode1) (SRS830.Member mode2) l in
  if SRS830.Mode.eq_dec mode1 mode2 then run = (Err ValueError, l)
  else snd run = l' /\
       forall values,
         SRS830.map_float py_float (split "," (dev l')) = Ok values ->
         fst run = Ok values.
Proof.
  intros H1 H2.
  destruct mode1; try discriminate H1; injection H1 as <-;
    destruct mode2; try discriminate H2; injection H2 as <-;
    cbv zeta; cbn [SRS830.Mode.eq_dec]; try reflexivity;
    (split; [reflexivity | intros values Hv; exact Hv]).
Qed.

Lemma polls_are_queries (k : nat) : forallb is_query (polls k) = true.
Proof. induction k; simpl; auto. Qed.

(** From the flush poll on, [take_measurement] only queries. *)
Lemma readout_run (l : log) :
  exists tail,
    tail <> [] /\ forallb is_query tail = true /\
    snd (Chan.bind (try_pass (SRS830.num_data_points dev isspace py_int))
           (fun _ =>
            Chan.bind (SRS830.read_data_buffer dev isspace py_int fromstring
                         (SRS830.Str "ch1"))
              (fun ch1 =>
               Chan.bind (SRS830.read_data_buffer dev isspace py_int fromstring
                            (SRS830.Str "ch2"))
                 (fun ch2 => lift (np_array ch1 ch2)))) l)
    = (l ++ tail)%list.
Proof.
  unfold Chan.bind at 1, try_pass.
  destruct (num_data_points_run dev isspace py_int l)
    as (k0 & Hk0 & Hlog0 & _).
  rewrite Hlog0. unfold Chan.bind at 1.
  destruct (read_data_buffer_run dev isspace py_int fromstring
              "ch1" 1 (l ++ polls k0)%list)
    as (k1 & Hk1 & [(N1 & _ & H1) | (e & _ & H1)]); [now left | |];
    rewrite H1.
  - unfold Chan.bind at 1.
    destruct (read_data_buffer_run dev isspace py_int fromstring "ch2" 2
                ((l ++ polls k0) ++ polls k1 ++ [trca 1 N1])%list)
      as (k2 & Hk2 & [(N2 & _ & H2) | (e & _ & H2)]); [now right | |];
      rewrite H2; cbn [snd ret].
    + exists (polls k0 ++ polls k1 ++ [trca 1 N1] ++ polls k2 ++ [trca 2 N2])%list.
      split; [destruct k0; [lia | discriminate]|].
      split; [|now rewrite <- !app_assoc].
      now rewrite !forallb_app, !polls_are_queries.
    + exists (polls k0 ++ polls k1 ++ [trca 1 N1] ++ polls k2)%list.
      split; [destruct k0; [lia | discriminate]|].
      split; [|now rewrite <- !app_assoc].
      now rewrite !forallb_app, !polls_are_queries.
  - cbn [snd]. exists (polls k0 ++ polls k1)%list.
    split; [destruct k0; [lia | discriminate]|].
    split; [|now rewrite <- !app_assoc].
    now rewrite !forallb_app, !polls_are_queries.
Qed.

Lemma ceil_div_number (n t : Z) (v : pyval) :
  SRS830.ceil_div n v = Ok t -> is_str v = false.
Proof. now destruct v. Qed.

Lemma index_contains (l : list pyfloat) (v : pyval) : forall z i,
  index_from z l v = Ok i -> contains l v = true.
Proof.
  unfold contains. induction l as [|f l IH]; intros z i H; simpl in *.
  - discriminate.
  - destruct (eq_float v f); [reflexivity | exact (IH _ _ H)].
Qed.

(** With a count the guard lets through, [take_measurement] is the
    acquisition that follows the guard. *)
Lemma take_measurement_within
    (sample_rate : pyval) (num_samples : Z) (l : log) :
  0 <= num_samples <= 16383 ->
  SRS830.take_measurement dev isspace py_int fromstring np_array
    sample_rate num_samples l =
    Chan.bind (lift (SRS830.ceil_div num_samples sample_rate))
      (fun sample_time =>
       Chan.bind (SRS830.init sample_rate SRS830.BufferMode.one_shot)
         (fun _ =>
          Chan.bind SRS830.start_data_transfer
            (fun _ =>
             Chan.bind (sleep sample_time)
               (fun _ =>
                Chan.bind SRS830.pause
                  (fun _ =>
                   Chan.bind
                     (try_pass (SRS830.num_data_points dev isspace py_int))
                     (fun _ =>
                      Chan.bind
                        (SRS830.read_data_buffer dev isspace py_int
                           fromstring (SRS830.Str "ch1"))
                        (fun ch1 =>
                         Chan.bind
                           (SRS830.read_data_buffer dev isspace py_int
                              fromstring (SRS830.Str "ch2"))
                           (fun ch2 => lift (np_array ch1 ch2))))))))) l.
Proof.
  intros Hn. unfold SRS830.take_measurement.
  unfold Chan.bind at 1, lift at 1.
  assert (16383 < 2 ^ 53) by (vm_compute; reflexivity).
  rewrite PyFacts.float_of_int_small by lia.
  rewrite PyFacts.float_gt_of_int.
  now replace (16383 <? num_samples) with false
    by (symmetry; apply Z.ltb_ge; lia).
Qed.

(** X13.  For any sample count from 0 to 16383 and any number among the
    legal rates, [take_measurement] sends [REST], [SRAT] with the index of the
    rate, [SEND 0], [FAST 2] and [STRD], sleeps for the sample time plus
    the margin, sends [PAUS], and from then on only queries: nothing is
    written to the device after the pause. *)
Theorem take_measurement_acquisition
    (sample_rate : pyval) (num_samples i t : Z) (l : log) :
  0 <= num_samples <= 16383 ->
  index SRS830.VALID_SAMPLE_RATES sample_rate = Ok i ->
  SRS830.ceil_div num_samples sample_rate = Ok t ->
  exists tail,
    tail <> [] /\ forallb is_query tail = true /\
    snd (SRS830.take_measurement dev isspace py_int fromstring np_array
           sample_rate num_samples l)
    = (l ++ acquisition_at i t ++ tail)%list.
Proof.
  intros Hn Hi Ht.
  pose proof (ceil_div_number _ _ _ Ht) as Hstr.
  pose proof (sample_rate_setter_number sample_rate (l ++ [Send "REST"])%list
                Hstr) as Hset.
  rewrite (index_contains _ _ _ _ Hi) in Hset.
  destruct Hset as (i' & Hi' & Hset).
  assert (i' = i) by congruence. subst i'.
  destruct (readout_run (l ++ acquisition_at i t)%list)
    as (tail & Hne & Hq & Hrun).
  exists tail. split; [exact Hne|]. split; [exact Hq|].
  rewrite app_assoc, <- Hrun.
  rewrite (take_measurement_within sample_rate num_samples l Hn).
  unfold Chan.bind at 1, lift at 1. rewrite Ht.
  unfold Chan.bind at 1, SRS830.init, Chan.bind at 1,
    SRS830.clear_data_buffer, sendcmd at 1, Chan.bind at 1.
  rewrite Hset.
  unfold SRS830.buffer_mode_setter, SRS830.start_data_transfer,
    SRS830.data_transfer_setter, SRS830.start_scan, SRS830.pause.
  unfold Chan.bind at 1, Chan.bind at 1, sendcmd at 1 2 3,
    Chan.bind at 1, sleep, Chan.bind at 1, sendcmd at 1.
  unfold acquisition_at. rewrite <- !app_assoc. reflexivity.
Qed.

(** X14.  With a sample count from 0 to 16383, a sample rate the sample
    time cannot be computed from (zero, a string such as "trigger",
    [None]) makes [take_measurement] raise before any I/O; a non-zero
    integer that is not a legal rate makes it raise [ValueError] after
    [REST] has been sent, the buffer being cleared before the rate is
    checked. *)
Theorem take_measurement_bad_rate
    (sample_rate : pyval) (num_samples : Z) (l : log) :
  0 <= num_samples <= 16383 ->
  (forall e, SRS830.ceil_div num_samples sample_rate = Err e ->
             as_float sample_rate <> Some NaN ->
   SRS830.take_measurement dev isspace py_int fromstring np_array
     sample_rate num_samples l = (Err e, l)) /\
  (forall r, sample_rate = PyInt r -> r <> 0 ->
             contains SRS830.VALID_SAMPLE_RATES sample_rate = false ->
   SRS830.take_measurement dev isspace py_int fromstring np_array
     sample_rate num_samples l = (Err ValueError, (l ++ [Send "REST"])%list)).
Proof.
  intros Hn.
  rewrite (take_measurement_within sample_rate num_samples l Hn).
  unfold Chan.bind at 1, lift at 1. split.
  - intros e He _. now rewrite He.
  - intros r -> Hr Hout.
    assert (Ht : exists t, SRS830.ceil_div num_samples (PyInt r) = Ok t).
    { unfold SRS830.ceil_div, as_float, of_int.
      destruct (Qeq_bool (inject_Z r) 0) eqn:E; [|eexists; reflexivity].
      apply Qeq_bool_eq in E. unfold Qeq in E. simpl in E. lia. }
    destruct Ht as [t ->].
    pose proof (sample_rate_setter_number (PyInt r) (l ++ [Send "REST"])%list
                  eq_refl) as Hset.
    rewrite Hout in Hset.
    unfold lift at 1. cbv beta iota.
    unfold Chan.bind at 1, SRS830.init, Chan.bind at 1,
      SRS830.clear_data_buffer, sendcmd at 1.
    cbv beta iota. unfold Chan.bind at 1, Chan.bind at 1.
    now rewrite Hset.
Qed.

End SRS830_Properties.

(** ** More of the temperature controller *)

Section TC200_Properties.
Import Py Chan Trace.
Variable dev : device.
Variable py_int : string -> option Z.
Variable py_float : string -> option pyfloat.
Variable repr_float : pyfloat -> string.

(** [check_command] always puts the command and one read on the channel
    and returns. *)
Lemma check_command_run (command : string) (l : log) :
  exists resp,
    TC200.check_command dev command l
    = (Ok resp, (l ++ [Query command; Read])%list).
Proof.
  unfold TC200.check_command, Chan.bind, query, read, ret.
  rewrite <- !app_assoc. cbn [app].
  destruct (find _ "CMD_NOT_DEFINED" =? -1);
    [destruct (find _ "CMD_ARG_INVALID" =? -1)|]; eexists; reflexivity.
Qed.

(** What the [enable] getter returns for a status that parses. *)
Lemma enable_run (l : log) (resp : TC200.response) (n : Z) :
  fst (TC200.check_command dev "stat?" l) = Ok resp ->
  resp <> TC200.CMD_NOT_DEFINED ->
  py_int (TC200.text resp) = Some n ->
  TC200.enable dev py_int l
  = (Ok (Some (Z.testbit n 0)), (l ++ [Query "stat?"; Read])%list).
Proof.
  intros Hresp Hdef Hint. unfold TC200.enable, Chan.bind at 1.
  destruct (check_command_run "stat?" l) as [r Hr]. rewrite Hr in Hresp |- *.
  cbn [fst] in Hresp. injection Hresp as ->.
  rewrite Z.bit0_eqb.
  destruct resp; [congruence | |];
    unfold Chan.bind, lift, TC200.int; now rewrite Hint.
Qed.

(** X15.  When the status reply is not the undefined-command sentinel and
    parses as an integer, the [enable] getter returns bit 0 of it, after
    one query and one read. *)
Theorem enable_reads_bit0 (l : log) (resp : TC200.response) (n : Z) :
  fst (TC200.check_command dev "stat?" l) = Ok resp ->
  resp <> TC200.CMD_NOT_DEFINED ->
  py_int (TC200.text resp) = Some n ->
  TC200.enable dev py_int l
  = (Ok (Some (Z.testbit n 0)), (l ++ [Query "stat?"; Read])%list).
Proof. exact (enable_run l resp n). Qed.

(** X16.  With such a status, assigning a boolean to [enable] reads the
    status once and sends the toggle [ens] exactly when bit 0 differs from
    the value assigned; otherwise it sends nothing. *)
Theorem enable_setter_toggles (b : bool) (l : log) (resp : TC200.response) (n : Z) :
  fst (TC200.check_command dev "stat?" l) = Ok resp ->
  resp <> TC200.CMD_NOT_DEFINED ->
  py_int (TC200.text resp) = Some n ->
  let l' := (l ++ [Query "stat?"; Read])%list in
  TC200.enable_setter dev py_int (PyBool b) l
  = (Ok tt, if Bool.eqb b (Z.testbit n 0) then l' else (l' ++ [Send "ens"])%list).
Proof.
  intros Hresp Hdef Hint. cbv zeta.
  pose proof (enable_run l resp n Hresp Hdef Hint) as Hen.
  unfold TC200.enable_setter.
  destruct b; unfold Chan.bind; rewrite Hen; cbn [TC200.truthy_status];
    destruct (Z.testbit n 0); reflexivity.
Qed.

(** X17.  When the status reply is the undefined-command sentinel, [enable]
    reads as [None]: assigning [True] then sends the toggle [ens] without
    knowing the state, and assigning [False] sends nothing.  Anything but
    a boolean raises [TypeError] before the status is read. *)
Theorem enable_setter_undefined_status (l : log) :
  (fst (TC200.check_command dev "stat?" l) = Ok TC200.CMD_NOT_DEFINED ->
   let l' := (l ++ [Query "stat?"; Read])%list in
   TC200.enable_setter dev py_int (PyBool true) l
     = (Ok tt, (l' ++ [Send "ens"])%list) /\
   TC200.enable_setter dev py_int (PyBool false) l = (Ok tt, l')) /\
  (forall v, (forall b, v <> PyBool b) ->
   TC200.enable_setter dev py_int v l = (Err TypeError, l)).
Proof.
  split.
  - intros Hresp. cbv zeta.
    destruct (check_command_run "stat?" l) as [r Hr].
    rewrite Hr in Hresp. cbn [fst] in Hresp. injection Hresp as ->.
    unfold TC200.enable_setter, TC200.enable, Chan.bind. rewrite Hr.
    split; reflexivity.
  - intros v Hv. destruct v; try reflexivity. elim (Hv b). reflexivity.
Qed.

(** X18.  The [degrees] getter never returns a unit: after one query and
    one read it returns [None] when [CMD_NOT_DEFINED] occurs in the reply,
    and raises [TypeError] on every other reply, the shift being applied
    to the reply text. *)
Theorem degrees_never_returns_a_unit (l : log) :
  let l' := (l ++ [Query "stat?"; Read])%list in
  (occurs "CMD_NOT_DEFINED" (dev l') -> TC200.degrees dev l = (Ok None, l')) /\
  (~ occurs "CMD_NOT_DEFINED" (dev l') ->
   TC200.degrees dev l = (Err TypeError, l')).
Proof.
  cbv zeta.
  assert (H : TC200.degrees dev l =
              (if find (dev (l ++ [Query "stat?"; Read])%list)
                    "CMD_NOT_DEFINED" =? -1
               then Err TypeError else Ok None,
               (l ++ [Query "stat?"; Read])%list)).
  { unfold TC200.degrees, TC200.check_command, Chan.bind, query, read, ret.
    rewrite <- !app_assoc. cbn [app].
    destruct (find _ "CMD_NOT_DEFINED" =? -1); [|reflexivity].
    destruct (find _ "CMD_ARG_INVALID" =? -1); reflexivity. }
  rewrite H.
  pose proof (PyFacts.find_eqb (dev (l ++ [Query "stat?"; Read])%list)
                "CMD_NOT_DEFINED") as Hf.
  destruct (find _ "CMD_NOT_DEFINED" =? -1); split; intros Ho;
    try reflexivity.
  - elim (proj1 Hf eq_refl). exact Ho.
  - apply Hf in Ho. discriminate Ho.
Qed.

Lemma remove_char_absent (c : ascii) (s : string) :
  ~ occurs (String c EmptyString) (remove_char c s).
Proof.
  induction s as [|d s IH]; simpl.
  - intros (b & a & H). destruct b; discriminate.
  - destruct (Ascii.eqb d c) eqn:E; [exact IH|].
    intros Hocc. apply PyFacts.occurs_inv in Hocc as [Hp|Ho]; [|now apply IH].
    simpl in Hp. destruct (ascii_dec c d) as [->|]; [|discriminate].
    now rewrite Ascii.eqb_refl in E.
Qed.

Lemma remove_char_keeps_absent (c d : ascii) (s : string) :
  ~ occurs (String c EmptyString) s ->
  ~ occurs (String c EmptyString) (remove_char d s).
Proof.
  induction s as [|e s IH]; simpl; intros Hs; [exact Hs|].
  assert (Hs' : ~ occurs (String c EmptyString) s).
  { intros Ho. apply Hs. now apply PyFacts.occurs_later. }
  destruct (Ascii.eqb e d); [now apply IH|].
  intros Hocc. apply PyFacts.occurs_inv in Hocc as [Hp|Ho].
  - apply Hs. apply PyFacts.occurs_here.
    simpl in Hp |- *. destruct (ascii_dec c e); [|discriminate].
    apply PyFacts.prefix_empty.
  - now apply (IH Hs').
Qed.

(** X19.  A payload returned by [check_command] contains neither the
    terminator nor the end terminator. *)
Theorem payload_has_no_terminator (command : string) (l : log) (payload : string) :
  fst (TC200.check_command dev command l) = Ok (TC200.Payload payload) ->
  ~ occurs TC200.terminator payload /\ ~ occurs TC200.end_terminator payload.
Proof.
  unfold TC200.check_command, Chan.bind, query, read, ret.
  destruct (find _ "CMD_NOT_DEFINED" =? -1); [|discriminate].
  destruct (find _ "CMD_ARG_INVALID" =? -1); [|discriminate].
  cbn [fst]. intros H.
  match type of H with
  | Ok (TC200.Payload ?out) = _ => assert (E : payload = out) by congruence
  end.
  rewrite E. unfold TC200.terminator, TC200.end_terminator.
  rewrite !PyFacts.replace_char. split.
  - apply remove_char_keeps_absent, remove_char_absent.
  - apply remove_char_absent.
Qed.

(** X20.  The name [max_power] ends up bound to the temperature property:
    assigning to it sends [TMAX=] for a value from 20 to 205 and raises
    [ValueError] for one below 20 or above 205, so that no power of the
    documented range 0.1 to 18 is accepted, and reading it asks [TMAX?]. *)
Theorem max_power_is_max_temperature (v : pyfloat) (l : log) :
  (float_le (of_int 20) v = true -> float_le v (of_int 205) = true ->
   TC200.setattr dev py_float repr_float TC200.max_power v l
     = (Ok tt, (l ++ [Send ("TMAX=" ++ repr_float v)])%list)) /\
  (float_lt v (of_int 20) = true \/ float_gt v (of_int 205) = true ->
   TC200.setattr dev py_float repr_float TC200.max_power v l = (Err ValueError, l)) /\
  (float_le v (of_int 18) = true ->
   TC200.setattr dev py_float repr_float TC200.max_power v l = (Err ValueError, l)) /\
  snd (TC200.getattr dev py_float repr_float TC200.max_power l)
    = (l ++ [Query "TMAX?"; Read])%list.
Proof.
  change (TC200.setattr dev py_float repr_float TC200.max_power v l)
    with (TC200.max_temperature_fset repr_float v l).
  change (TC200.getattr dev py_float repr_float TC200.max_power l)
    with (TC200.max_temperature_fget dev py_float l).
  unfold TC200.max_temperature_fset.
  assert (Hlow : float_lt v (of_int 20) = true ->
                 (if float_lt v (of_int 20) then raise ValueError
                  else if float_gt v (of_int 205) then raise ValueError
                       else sendcmd ("TMAX=" ++ repr_float v)) l
                 = (Err ValueError, l)).
  { intros H. now rewrite H. }
  split; [|split; [|split]].
  - intros Hlo Hhi.
    apply PyFacts.float_le_not_lt in Hlo.
    apply PyFacts.float_le_not_lt in Hhi.
    unfold float_gt. now rewrite Hlo, Hhi.
  - intros [H|H]; [now apply Hlow|].
    rewrite H. now destruct (float_lt v (of_int 20)).
  - intros H. apply Hlow.
    destruct v as [q| | |]; try discriminate H; [|reflexivity].
    unfold float_le, float_lt, of_int, float_compare in *.
    destruct (Qcompare_spec q (inject_Z 18)) as [E|E|E]; try discriminate H.
    + rewrite E. reflexivity.
    + destruct (Qcompare_spec q (inject_Z 20)) as [F|F|F]; try reflexivity;
        exfalso.
      * rewrite F in E. discriminate E.
      * assert (G : (inject_Z 20 < inject_Z 18)%Q)
          by (eapply Qlt_trans; eassumption).
        discriminate G.
  - unfold TC200.max_temperature_fget, Chan.bind at 1.
    destruct (check_command_run "TMAX?" l) as [r ->].
    destruct r; try reflexivity;
      unfold Chan.bind, lift, TC200.float;
      match goal with |- context [py_float ?s] => destruct (py_float s) end;
      reflexivity.
Qed.

(** X21.  [max_temperature] is left without a setter, its setter having
    been bound to another name: assigning to it raises [AttributeError]
    and nothing is sent. *)
Theorem max_temperature_cannot_be_set (v : pyfloat) (l : log) :
  TC200.setattr dev py_float repr_float TC200.max_temperature v l = (Err AttributeError, l).
Proof. reflexivity. Qed.

End TC200_Properties.

(** ** The further properties at concrete calls *)

Section More_Instances.
Import Py Chan Trace.

Lemma coupling_round_trip_witness :
  Demo.py_int (Demo.scripted ["1"] [Send "ICPL 1"; Query "ICPL?"]) = Some 1 /\
  Chan.bind (SRS830.coupling_setter (SRS830.ACoupling SRS830.Coupling.dc))
    (fun _ => SRS830.coupling (Demo.scripted ["1"]) Demo.py_int) []
  = (Ok SRS830.Coupling.dc, [Send "ICPL 1"; Query "ICPL?"]).
Proof.
  split; [reflexivity|].
  apply (coupling_round_trip (Demo.scripted ["1"]) Demo.py_int
           SRS830.Coupling.dc []).
  reflexivity.
Defined.

Lemma input_shield_ground_round_trip_witness :
  Chan.bind (SRS830.input_shield_ground_setter (PyStr "float"))
    (fun _ => SRS830.input_shield_ground (Demo.scripted ["1"]) Demo.py_int) []
  = (Ok true, [Send "IGND 1"; Query "IGND?"]).
Proof.
  apply (input_shield_ground_round_trip (Demo.scripted ["1"]) Demo.py_int
           (PyStr "float") []).
  reflexivity.
Defined.

(** 5 is accepted and the double 0.0039 is refused. *)
Lemma amplitude_setter_closed_witness :
  SRS830.amplitude_setter Demo.repr_float (of_int 5) []
    = (Ok tt, [Send "SLVL 5.0"]) /\
  SRS830.amplitude_setter Demo.repr_float
    (Finite (4496393867966703 # 1152921504606846976)) []
    = (Err ValueError, []).
Proof.
  split.
  - apply (proj1 (amplitude_setter_closed Demo.repr_float (of_int 5) []));
      reflexivity.
  - apply (proj2 (amplitude_setter_closed Demo.repr_float
                    (Finite (4496393867966703 # 1152921504606846976)) [])).
    left. reflexivity.
Defined.

(** The code sent for "trigger" cannot be read back. *)
Lemma sample_rate_decodes_witness :
  fst (SRS830.sample_rate (Demo.scripted ["14"]) Demo.py_int []) = Ok None /\
  fst (SRS830.sample_rate (Demo.scripted ["0"]) Demo.py_int [])
    = Ok (Some (Finite (2 ^ (-4))%Q)).
Proof.
  split.
  - apply (sample_rate_decodes (Demo.scripted ["14"]) Demo.py_int 14 []);
      [reflexivity | right; lia].
  - apply (sample_rate_decodes (Demo.scripted ["0"]) Demo.py_int 0 []);
      [reflexivity | lia].
Defined.

Lemma sample_rate_round_trip_witness :
  exists (i : Z) (f : pyfloat),
    0 <= i <= 13 /\ eq_float (PyInt 64) f = true /\
    (Demo.py_int
       (Demo.scripted ["10"] [Send ("SRAT " ++ str_of_int i); Query "SRAT?"])
     = Some i ->
     Chan.bind (SRS830.sample_rate_setter (PyInt 64))
       (fun _ => SRS830.sample_rate (Demo.scripted ["10"]) Demo.py_int) []
     = (Ok (Some f), [Send ("SRAT " ++ str_of_int i); Query "SRAT?"])).
Proof.
  apply (sample_rate_round_trip (Demo.scripted ["10"]) Demo.py_int
           (PyInt 64) []); reflexivity.
Defined.

(** theta is listed for [data_snap] and raises [KeyError]. *)
Lemma data_snap_listed_modes_key_error_witness :
  SRS830.data_snap Demo.silent Demo.py_float
    (SRS830.Member SRS830.Mode.r) (SRS830.Member SRS830.Mode.theta) []
  = (Err KeyError, []).
Proof.
  apply (data_snap_listed_modes_key_error Demo.silent Demo.py_float
           SRS830.Mode.r SRS830.Mode.theta []);
    [reflexivity | reflexivity | right; reflexivity].
Defined.

Lemma data_snap_members_witness :
  SRS830.data_snap (Demo.scripted ["3,4"]) Demo.py_float
    (SRS830.Member SRS830.Mode.y) (SRS830.Member SRS830.Mode.x) []
  = (Ok [of_int 3; of_int 4], [Query "SNAP? 2,1"]).
Proof.
  pose proof (data_snap_members (Demo.scripted ["3,4"]) Demo.py_float
                SRS830.Mode.y SRS830.Mode.x 2 1 [] eq_refl eq_refl) as H.
  destruct H as [Hlog Hval].
  rewrite (surjective_pairing (SRS830.data_snap _ _ _ _ _)).
  now rewrite Hlog, (Hval [of_int 3; of_int 4] eq_refl).
Defined.

(** Half a hertz, ten samples: index 3 and a wait of twenty seconds. *)
Lemma take_measurement_acquisition_witness :
  exists tail,
    tail <> [] /\ forallb is_query tail = true /\
    snd (SRS830.take_measurement Demo.silent Demo.isspace Demo.py_int
           Demo.fromstring Demo.np_array (PyFloat (Finite (1 # 2))) 10 [])
    = (acquisition_at 3 20 ++ tail)%list.
Proof.
  apply (take_measurement_acquisition Demo.silent Demo.isspace Demo.py_int
           Demo.fromstring Demo.np_array (PyFloat (Finite (1 # 2))) 10 3 20 []);
    [lia | reflexivity | reflexivity].
Defined.

(** "trigger" fails before any I/O; 3 Hz fails once [REST] is out. *)
Lemma take_measurement_bad_rate_witness :
  SRS830.take_measurement Demo.silent Demo.isspace Demo.py_int
    Demo.fromstring Demo.np_array (PyStr "trigger") 10 [] = (Err TypeError, []) /\
  SRS830.take_measurement Demo.silent Demo.isspace Demo.py_int
    Demo.fromstring Demo.np_array (PyInt 3) 10 [] = (Err ValueError, [Send "REST"]).
Proof.
  split.
  - apply (proj1 (take_measurement_bad_rate Demo.silent Demo.isspace
                    Demo.py_int Demo.fromstring Demo.np_array (PyStr "trigger") 10 []
                    ltac:(lia)));
      [reflexivity | discriminate].
  - apply (proj2 (take_measurement_bad_rate Demo.silent Demo.isspace
                    Demo.py_int Demo.fromstring Demo.np_array (PyInt 3) 10 [] ltac:(lia))
             3);
      [reflexivity | lia | reflexivity].
Defined.

Lemma enable_reads_bit0_witness :
  TC200.enable (Demo.scripted [""; "stat?" ++ TC200.terminator ++ "2>"])
    Demo.py_int []
  = (Ok (Some false), [Query "stat?"; Read]).
Proof.
  apply (enable_reads_bit0
           (Demo.scripted [""; "stat?" ++ TC200.terminator ++ "2>"])
           Demo.py_int [] (TC200.Payload "2") 2);
    [reflexivity | discriminate | reflexivity].
Defined.

(** The heater is on (status 3) and is asked off: the toggle goes out. *)
Lemma enable_setter_toggles_witness :
  TC200.enable_setter
    (Demo.scripted [""; "stat?" ++ TC200.terminator ++ "3>"]) Demo.py_int
    (PyBool false) []
  = (Ok tt, [Query "stat?"; Read; Send "ens"]).
Proof.
  apply (enable_setter_toggles
           (Demo.scripted [""; "stat?" ++ TC200.terminator ++ "3>"])
           Demo.py_int false [] (TC200.Payload "3") 3);
    [reflexivity | discriminate | reflexivity].
Defined.

Lemma enable_setter_undefined_status_witness :
  TC200.enable_setter
    (Demo.scripted [""; "Command error CMD_NOT_DEFINED"]) Demo.py_int
    (PyBool true) []
  = (Ok tt, [Query "stat?"; Read; Send "ens"]) /\
  TC200.enable_setter Demo.silent Demo.py_int (PyInt 1) [] = (Err TypeError, []).
Proof.
  split.
  - apply (proj1 (enable_setter_undefined_status
                    (Demo.scripted [""; "Command error CMD_NOT_DEFINED"])
                    Demo.py_int [])).
    reflexivity.
  - apply (proj2 (enable_setter_undefined_status Demo.silent Demo.py_int [])).
    discriminate.
Defined.

Lemma payload_has_no_terminator_witness :
  ~ occurs TC200.terminator "3 " /\ ~ occurs TC200.end_terminator "3 ".
Proof.
  apply (payload_has_no_terminator
           (Demo.scripted [""; "stat?" ++ TC200.terminator ++ "3 >"])
           "stat?" [] "3 ").
  reflexivity.
Defined.

(** Ten watts, a legal power, is refused as a temperature. *)
Lemma max_power_is_max_temperature_witness :
  TC200.setattr Demo.silent Demo.py_float Demo.repr_float
    TC200.max_power (of_int 10) [] = (Err ValueError, []) /\
  TC200.setattr Demo.silent Demo.py_float Demo.repr_float
    TC200.max_power (of_int 100) [] = (Ok tt, [Send "TMAX=100.0"]).
Proof.
  split.
  - apply (max_power_is_max_temperature Demo.silent Demo.py_float
             Demo.repr_float (of_int 10) []).
    reflexivity.
  - apply (proj1 (max_power_is_max_temperature Demo.silent Demo.py_float
                    Demo.repr_float (of_int 100) [])); reflexivity.
Defined.

(** 512 Hz is the last rate of the table; 3 Hz is not in it. *)
Lemma sample_rate_setter_on_numbers_witness :
  (exists i, index SRS830.VALID_SAMPLE_RATES (PyInt 512) = Ok i /\
     SRS830.sample_rate_setter (PyInt 512) []
       = (Ok tt, [Send ("SRAT " ++ str_of_int i)])) /\
  SRS830.sample_rate_setter (PyFloat (of_int 3)) [] = (Err ValueError, []).
Proof.
  split.
  - exact (sample_rate_setter_on_numbers (PyInt 512) [] eq_refl).
  - exact (sample_rate_setter_on_numbers (PyFloat (of_int 3)) [] eq_refl).
Defined.

(** x is a member and no channel; ["ch3"] names no member. *)
Lemma read_data_buffer_checks_channel_witness :
  SRS830.read_data_buffer Demo.silent Demo.isspace Demo.py_int Demo.fromstring
    (SRS830.Member SRS830.Mode.x) [] = (Err ValueError, []) /\
  SRS830.read_data_buffer Demo.silent Demo.isspace Demo.py_int Demo.fromstring
    (SRS830.Str "ch3") [] = (Err KeyError, []).
Proof.
  split.
  - apply (proj1 (read_data_buffer_checks_channel Demo.silent Demo.isspace
                    Demo.py_int Demo.fromstring
                    (SRS830.Member SRS830.Mode.x) []) SRS830.Mode.x);
      [reflexivity | discriminate | discriminate].
  - apply (proj2 (read_data_buffer_checks_channel Demo.silent Demo.isspace
                    Demo.py_int Demo.fromstring (SRS830.Str "ch3") [])
             KeyError).
    reflexivity.
Defined.

(** A status of 16, the Celsius bit, still raises. *)
Lemma degrees_never_returns_a_unit_witness :
  TC200.degrees (Demo.scripted [""; "Command error CMD_NOT_DEFINED"]) []
    = (Ok None, [Query "stat?"; Read]) /\
  TC200.degrees
    (Demo.scripted [""; "stat?" ++ TC200.terminator ++ "16>"]) []
    = (Err TypeError, [Query "stat?"; Read]).
Proof.
  split.
  - apply (proj1 (degrees_never_returns_a_unit
                    (Demo.scripted [""; "Command error CMD_NOT_DEFINED"]) [])).
    exists "Command error ", "". reflexivity.
  - apply (proj2 (degrees_never_returns_a_unit
                    (Demo.scripted [""; "stat?" ++ TC200.terminator ++ "16>"])
                    [])).
    apply PyFacts.find_spec. reflexivity.
Defined.

End More_Instances.
